(** * Versioning-aware DELETE / GET handlers of the S3 server

    Shallow embedding of
      - [lib/api/objectDelete.js]                         (the DELETE orchestrator),
      - [lib/api/apiUtils/object/checkQueryVersionId.js]  (the query guard),
    together with the parts of the versioning subsystem these handlers call
    into.  Collaborators whose code lives in other modules of the server
    (metadata validation, delete preprocessing, storage mutation, CORS header
    computation, the version-id codec) are taken as an explicit interface,
    [Collaborators]; the handler is a function of that interface. *)

From Stdlib Require Import ZArith Ascii String.
From stdpp Require Import gmap strings list fin_maps.

Local Open Scope string_scope.

(** ** JavaScript values *)

(** The primitive values that appear in query parameters, response headers
    and metric fields. *)
Inductive JsVal :=
| VUndefined
| VNull
| VBool (b : bool)
| VNum (z : Z)
| VStr (s : string).

#[global] Instance JsVal_eq_dec : EqDecision JsVal.
Proof. solve_decision. Defined.

(** A JS object used as a string-keyed dictionary. *)
Abbreviation JsObj := (gmap string JsVal).

(** Property read [o.k]: a missing key reads as [undefined]. *)
Definition get_prop (o : JsObj) (k : string) : JsVal :=
  default VUndefined (o !! k).

(** Truthiness of a value that is either [undefined] or a string
    (the shape of [reqVersionId] and of [result.versionId]). *)
Definition truthy (v : option string) : bool :=
  match v with
  | None => false
  | Some s => negb (String.eqb s "")
  end.

(** The request query as the router hands it over. *)
Inductive Query :=
| QUndefined
| QNull
| QObj (params : JsObj).

(** ** Errors *)

(** An error of the [arsenal] error table.  [description = None] stands for
    the table's default text; [customizeDescription] replaces it. *)
Record ArsenalError := {
  errType : string;
  errCode : Z;
  description : option string;
}.

#[global] Instance ArsenalError_eq_dec : EqDecision ArsenalError.
Proof. solve_decision. Defined.

Definition customizeDescription (e : ArsenalError) (msg : string) : ArsenalError :=
  {| errType := errType e; errCode := errCode e; description := Some msg |}.

Module errors.
Definition AccessDenied : ArsenalError :=
  {| errType := "AccessDenied"; errCode := 403; description := None |}.
Definition NoSuchKey : ArsenalError :=
  {| errType := "NoSuchKey"; errCode := 404; description := None |}.
Definition MethodNotAllowed : ArsenalError :=
  {| errType := "MethodNotAllowed"; errCode := 405; description := None |}.
Definition InvalidArgument : ArsenalError :=
  {| errType := "InvalidArgument"; errCode := 400; description := None |}.
End errors.

(** Error objects that reach the handler from outside: an arsenal error or
    any other JS [Error]. *)
Inductive Error :=
| ArsenalErr (e : ArsenalError)
| PlainError (message : string).

#[global] Instance Error_eq_dec : EqDecision Error.
Proof. solve_decision. Defined.

(** ** Query guard: [checkQueryVersionId] *)

Definition customMsg : string := "This operation does not accept a version-id.".

(** [query && query.versionId !== undefined]; the result [None] is the JS
    [undefined] the function returns when it accepts. *)
Definition checkQueryVersionId (query : Query) : option ArsenalError :=
  match query with
  | QObj params =>
      if decide (get_prop params "versionId" ≠ VUndefined)
      then Some (customizeDescription errors.InvalidArgument customMsg)
      else None
  | QUndefined | QNull => None
  end.

(** ** Data model of the DELETE handler *)

(** [authInfo]: the two accessors the handler uses. *)
Record AuthInfo := {
  isRequesterPublicUser : bool;
  getCanonicalID : string;
}.

#[global] Instance AuthInfo_eq_dec : EqDecision AuthInfo.
Proof. solve_decision. Defined.

(** The fields of [request] the handler reads. *)
Record Request := {
  bucketName : string;
  objectKey : string;
  query : Query;
  headers_origin : JsVal;
  method : string;
}.

Inductive VersioningStatus := Enabled | Suspended.

#[global] Instance VersioningStatus_eq_dec : EqDecision VersioningStatus.
Proof. solve_decision. Defined.

(** Bucket metadata; [getVersioningConfiguration] is [None] for a bucket on
    which versioning was never configured. *)
Record BucketMD := {
  bucketMD_name : string;
  getVersioningConfiguration : option VersioningStatus;
}.

#[global] Instance BucketMD_eq_dec : EqDecision BucketMD.
Proof. solve_decision. Defined.

(** Object metadata: ['content-length'], [isDeleteMarker] (absent reads as
    falsy) and the version's internal id. *)
Record ObjectMD := {
  content_length : option Z;
  isDeleteMarker : bool;
  md_versionId : option string;
}.

#[global] Instance ObjectMD_eq_dec : EqDecision ObjectMD.
Proof. solve_decision. Defined.

(** Options produced by delete preprocessing; an absent [deleteData] reads
    as [false]. *)
Record DelOptions := {
  deleteData : bool;
  opt_versionId : option string;
}.

#[global] Instance DelOptions_eq_dec : EqDecision DelOptions.
Proof. solve_decision. Defined.

(** What the storage calls hand to their callback on success. *)
Record OpResult := {
  versionId : option string;
}.

(** [valParams] of [metadataValidateBucketAndObj]. *)
Record ValParams := {
  vp_authInfo : AuthInfo;
  vp_bucketName : string;
  vp_objectKey : string;
  vp_versionId : option string;
  vp_requestType : string;
}.

(** Result of [decodeVersionId(request.query)]: an [Error] instance, or the
    decoded id, [undefined] when the query names none. *)
Inductive VidResult :=
| VidError (e : Error)
| VidValue (v : option string).

(** The metric object handed to [pushMetric]. *)
Inductive MetricObj :=
| PutObjectParams (authInfo : AuthInfo) (bucket : string)
    (newByteLength oldByteLength : Z)
| DeleteObjectParams (authInfo : AuthInfo) (bucket : string)
    (byteLength : option Z) (numberOfObjects : Z).

(** Calls the handler makes to the outside, in program order. *)
Inductive Event :=
| EvValidate (valParams : ValParams)
| EvAddDefaultFields (bytesDeleted : Z)
| EvDeleteObject (bucket : string) (objectMD : ObjectMD) (key : string)
    (delOptions : DelOptions)
| EvCreateAndStore (bucket : string) (bucketMD : BucketMD) (key : string)
    (objectMD : option ObjectMD) (authInfo : AuthInfo) (canonicalID : string)
    (cipherBundle : JsVal) (request : Request) (isDeleteMarker : bool)
    (streamingV4Params : JsVal)
| EvPushMetric (action : string) (obj : MetricObj).

(** Events that change stored data. *)
Definition is_mutation (ev : Event) : bool :=
  match ev with
  | EvDeleteObject _ _ _ _ => true
  | EvCreateAndStore _ _ _ _ _ _ _ _ _ _ => true
  | _ => false
  end.

Definition is_metric (ev : Event) : bool :=
  match ev with
  | EvPushMetric _ _ => true
  | _ => false
  end.

(** The error slot of the waterfall: the module-private [skipError] object,
    or an error object that came from a collaborator.  [err === skipError]
    is object identity, so a foreign [new Error('skip')] is not the
    sentinel. *)
Inductive ErrRef :=
| skipError
| Foreign (e : Error).

Record DeleteInfo := {
  removeDeleteMarker : bool;
  newDeleteMarker : bool;
}.

(** Arguments of the waterfall's final callback
    [(err, bucketMD, objectMD, result, deleteInfo)]; a task that stops early
    with [next(err, bucketMD)] leaves the rest [undefined]. *)
Record WaterfallEnd := {
  w_err : option ErrRef;
  w_bucketMD : option BucketMD;
  w_objectMD : option ObjectMD;
  w_result : option OpResult;
  w_deleteInfo : option DeleteInfo;
}.

Definition stop (err : ErrRef) (bucketMD : option BucketMD) : WaterfallEnd :=
  {| w_err := Some err; w_bucketMD := bucketMD; w_objectMD := None;
     w_result := None; w_deleteInfo := None |}.

(** Outcome of one waterfall task. *)
Inductive Flow (A : Type) :=
| Continue (a : A)
| Finish (e : WaterfallEnd)
| Crash.

Arguments Continue {A} a.
Arguments Finish {A} e.
Arguments Crash {A}.

(** What the caller of [objectDelete] observes: [cb(err, resHeaders)], or an
    uncaught [TypeError] from a property read on [undefined]. *)
Inductive Outcome :=
| Called (err : option Error) (resHeaders : option JsObj)
| Threw.

(** ** Collaborators *)

(** The functions [objectDelete] imports, over an abstract storage state
    [W].  Metadata validation only reads the store. *)
Record Collaborators (W : Type) := {
  decodeVersionId : Query → VidResult;
  metadataValidateBucketAndObj :
    ValParams → W → option Error * option BucketMD * option ObjectMD;
  preprocessingVersioningDelete :
    string → BucketMD → option ObjectMD → option string →
    option Error * option DelOptions;
  services_deleteObject :
    string → ObjectMD → string → DelOptions → W →
    option Error * option OpResult * W;
  createAndStoreObject :
    string → BucketMD → string → option ObjectMD → AuthInfo → string →
    JsVal → Request → bool → JsVal → W →
    option Error * option OpResult * W;
  collectCorsHeaders : JsVal → string → option BucketMD → JsObj;
  versionIdUtils_encode : string → string;
}.

Arguments decodeVersionId {W} _ _.
Arguments metadataValidateBucketAndObj {W} _ _ _.
Arguments preprocessingVersioningDelete {W} _ _ _ _ _.
Arguments services_deleteObject {W} _ _ _ _ _ _.
Arguments createAndStoreObject {W} _ _ _ _ _ _ _ _ _ _ _ _.
Arguments collectCorsHeaders {W} _ _ _ _.
Arguments versionIdUtils_encode {W} _ _.

(** Storage state plus the calls made so far. *)
Record State (W : Type) := {
  world : W;
  events : list Event;
}.

Arguments world {W} _.
Arguments events {W} _.

Definition emit {W} (ev : Event) (st : State W) : State W :=
  {| world := world st; events := events st ++ [ev] |}.

Definition set_world {W} (w : W) (st : State W) : State W :=
  {| world := w; events := events st |}.

(** ** The DELETE handler: [objectDelete] *)

Section ObjectDelete.
Context {W : Type} (E : Collaborators W).
Variables (authInfo : AuthInfo) (request : Request).

(** The version id as it goes into a response header. *)
Definition header_version_id (vid : string) : JsVal :=
  if String.eqb vid "null" then VStr vid
  else VStr (versionIdUtils_encode E vid).

Section Waterfall.
Variable reqVersionId : option string.

Definition valParams : ValParams :=
  {| vp_authInfo := authInfo;
     vp_bucketName := bucketName request;
     vp_objectKey := objectKey request;
     vp_versionId := reqVersionId;
     vp_requestType := "objectDelete" |}.

Definition validateBucketAndObj (st : State W)
  : Flow (BucketMD * option ObjectMD) * State W :=
  let st := emit (EvValidate valParams) st in
  match metadataValidateBucketAndObj E valParams (world st) with
  | (Some err, bucketMD, _) => (Finish (stop (Foreign err) bucketMD), st)
  | (None, None, _) => (Crash, st)
  | (None, Some bucketMD, None) =>
      match getVersioningConfiguration bucketMD with
      | None =>
          (Finish (stop (Foreign (ArsenalErr errors.NoSuchKey))
                     (Some bucketMD)), st)
      | Some _ =>
          if truthy reqVersionId
          then (Finish (stop skipError (Some bucketMD)), st)
          else (Continue (bucketMD, None), st)
      end
  | (None, Some bucketMD, Some objMD) =>
      let st :=
        match content_length objMD with
        | Some n => emit (EvAddDefaultFields n) st
        | None => st
        end in
      (Continue (bucketMD, Some objMD), st)
  end.

Definition getVersioningInfo (bucketMD : BucketMD)
    (objectMD : option ObjectMD) (st : State W)
  : Flow (BucketMD * option ObjectMD * option DelOptions) * State W :=
  match preprocessingVersioningDelete E (bucketName request) bucketMD
          objectMD reqVersionId with
  | (Some err, _) => (Finish (stop (Foreign err) (Some bucketMD)), st)
  | (None, options) => (Continue (bucketMD, objectMD, options), st)
  end.

(** The two arms of [deleteOperation], the last task: both end in the
    final callback.  [removeVersion] is the arm under
    [if (delOptions && delOptions.deleteData)]; reading
    [objectMD.isDeleteMarker] throws when [objectMD] is [undefined]
    ([None] as a result). *)
Definition removeVersion (bucketMD : BucketMD)
    (objectMD : option ObjectMD) (o : DelOptions) (st : State W)
  : option WaterfallEnd * State W :=
  match objectMD with
  | None => (None, st)
  | Some md =>
      let deleteInfo :=
        {| removeDeleteMarker := isDeleteMarker md;
           newDeleteMarker := false |} in
      let st := emit (EvDeleteObject (bucketName request) md
                        (objectKey request) o) st in
      let '(err, delResult, w) :=
        services_deleteObject E (bucketName request) md
          (objectKey request) o (world st) in
      (Some {| w_err := Foreign <$> err;
               w_bucketMD := Some bucketMD;
               w_objectMD := objectMD;
               w_result := delResult;
               w_deleteInfo := Some deleteInfo |},
       set_world w st)
  end.

Definition putDeleteMarker (bucketMD : BucketMD)
    (objectMD : option ObjectMD) (st : State W)
  : option WaterfallEnd * State W :=
  let deleteInfo :=
    {| removeDeleteMarker := false; newDeleteMarker := true |} in
  let canonicalID := getCanonicalID authInfo in
  let st := emit (EvCreateAndStore (bucketName request) bucketMD
                    (objectKey request) objectMD authInfo canonicalID
                    VNull request (newDeleteMarker deleteInfo) VNull) st in
  let '(err, newDelMarkerRes, w) :=
    createAndStoreObject E (bucketName request) bucketMD
      (objectKey request) objectMD authInfo canonicalID VNull request
      (newDeleteMarker deleteInfo) VNull (world st) in
  (Some {| w_err := Foreign <$> err;
           w_bucketMD := Some bucketMD;
           w_objectMD := objectMD;
           w_result := newDelMarkerRes;
           w_deleteInfo := Some deleteInfo |},
   set_world w st).

Definition deleteOperation (bucketMD : BucketMD)
    (objectMD : option ObjectMD) (delOptions : option DelOptions)
    (st : State W) : option WaterfallEnd * State W :=
  match delOptions with
  | Some o =>
      if deleteData o then removeVersion bucketMD objectMD o st
      else putDeleteMarker bucketMD objectMD st
  | None => putDeleteMarker bucketMD objectMD st
  end.

(** [async.waterfall]: run the tasks in order; the first [next(err, ...)]
    with a truthy [err], or the end of the last task, calls the final
    callback with what [next] was given.  [None]: a task threw. *)
Definition waterfall (st : State W) : option WaterfallEnd * State W :=
  match validateBucketAndObj st with
  | (Finish e, st) => (Some e, st)
  | (Crash, st) => (None, st)
  | (Continue (bucketMD, objectMD), st) =>
      match getVersioningInfo bucketMD objectMD st with
      | (Finish e, st) => (Some e, st)
      | (Crash, st) => (None, st)
      | (Continue (bucketMD, objectMD, delOptions), st) =>
          deleteOperation bucketMD objectMD delOptions st
      end
  end.

(** The header writes of the final callback after a marker creation:
    [if (result.versionId) { ... }], both headers or none. *)
Definition markerCreatedHeaders (resHeaders : JsObj) (result : OpResult)
  : JsObj :=
  match versionId result with
  | Some vid =>
      if truthy (Some vid)
      then <["x-amz-version-id" := header_version_id vid]>
             (<["x-amz-delete-marker" := VBool true]> resHeaders)
      else resHeaders
  | None => resHeaders
  end.

(** The header writes after a physical delete: [if (reqVersionId) { ... }],
    with the marker header nested under it. *)
Definition versionDeletedHeaders (resHeaders : JsObj)
    (deleteInfo : DeleteInfo) : JsObj :=
  match reqVersionId with
  | Some vid =>
      if truthy (Some vid) then
        let resHeaders :=
          <["x-amz-version-id" := header_version_id vid]> resHeaders in
        if removeDeleteMarker deleteInfo
        then <["x-amz-delete-marker" := VBool true]> resHeaders
        else resHeaders
      else resHeaders
  | None => resHeaders
  end.

(** The waterfall's final callback. *)
Definition finalCallback (e : WaterfallEnd) (st : State W)
  : Outcome * State W :=
  let resHeaders :=
    collectCorsHeaders E (headers_origin request) (method request)
      (w_bucketMD e) in
  match w_err e with
  | Some skipError => (Called None (Some resHeaders), st)
  | Some (Foreign err) => (Called (Some err) (Some resHeaders), st)
  | None =>
      match w_deleteInfo e with
      | None => (Threw, st)
      | Some deleteInfo =>
          if newDeleteMarker deleteInfo then
            match w_result e with
            | None => (Threw, st)
            | Some result =>
                let resHeaders := markerCreatedHeaders resHeaders result in
                let st :=
                  emit (EvPushMetric "putObject"
                          (PutObjectParams authInfo (bucketName request)
                             0 0)) st in
                (Called None (Some resHeaders), st)
            end
          else
            let resHeaders := versionDeletedHeaders resHeaders deleteInfo in
            match w_objectMD e with
            | None => (Threw, st)
            | Some objectMD =>
                let st :=
                  emit (EvPushMetric "deleteObject"
                          (DeleteObjectParams authInfo (bucketName request)
                             (content_length objectMD) 1)) st in
                (Called None (Some resHeaders), st)
            end
      end
  end.
End Waterfall.

Definition initial (w : W) : State W := {| world := w; events := [] |}.

(** [objectDelete(authInfo, request, log, cb)] run against the store [w]:
    what [cb] receives, the store afterwards and the calls made.  On a
    decode error the handler first traces [request.query.versionId], a
    property read that throws when [request.query] is [undefined] or
    [null]. *)
Definition objectDelete (w : W) : Outcome * State W :=
  if isRequesterPublicUser authInfo
  then (Called (Some (ArsenalErr errors.AccessDenied)) None, initial w)
  else
    match decodeVersionId E (query request) with
    | VidError decodedVidResult =>
        match query request with
        | QObj _ => (Called (Some decodedVidResult) None, initial w)
        | QUndefined | QNull => (Threw, initial w)
        end
    | VidValue reqVersionId =>
        match waterfall reqVersionId (initial w) with
        | (Some e, st) => finalCallback reqVersionId e st
        | (None, st) => (Threw, st)
        end
    end.
End ObjectDelete.

(** ** Version identifier codec *)

(** Modelled from the spec: the version identifier codec, whose code
    ([versioning.VersionID] of arsenal and [decodeVersionId] of
    [apiUtils/object/versioning]) is not part of the sources at hand.
    [encode] maps an internal key to the opaque token; [decode] returns the
    internal key or a decode error. *)
Record Codec := {
  encode : string → string;
  decode : string → Error + string;
}.

(** Modelled from the spec: the literal ["null"] bypasses the codec and is
    passed through verbatim in both directions. *)
Definition encodeToken (c : Codec) (k : string) : string :=
  if String.eqb k "null" then k else encode c k.

Definition decodeToken (c : Codec) (t : string) : Error + string :=
  if String.eqb t "null" then inr t else decode c t.


(** ** Version chains *)

(** Modelled from the spec: a version of an object, with its internal
    sequence key, the delete-marker flag and the content (absent for a
    delete marker). *)
Record Version := {
  versionKey : string;
  v_isDeleteMarker : bool;
  v_content : option string;
}.

(** Modelled from the spec: key resolution of the metadata layer over an
    object's version chain (newest first): the version the request names,
    or the current version when it names none. *)
Definition resolveVersion (chain : list Version) (vid : option string)
  : option Version :=
  match vid with
  | None => head chain
  | Some k => find (λ v, String.eqb (versionKey v) k) chain
  end.

(** ** Delete preprocessing engine *)

Inductive EngineOutcome :=
| EngSkip
| EngDelete (o : DelOptions)
| EngMarker (o : DelOptions)
| EngError (e : Error).

(** Modelled from the spec: the decision table of the delete preprocessing
    engine ([preprocessingVersioningDelete] of [apiUtils/object/versioning],
    whose code is not part of the sources at hand), row by row. *)
Definition decision_table (cfg : option VersioningStatus)
    (reqVersionId : option string) (objectMD : option ObjectMD)
  : EngineOutcome :=
  match cfg with
  | None =>
      match objectMD with
      | Some _ => EngDelete {| deleteData := true; opt_versionId := None |}
      | None => EngError (ArsenalErr errors.NoSuchKey)
      end
  | Some _ =>
      if truthy reqVersionId then
        match objectMD with
        | Some _ =>
            EngDelete {| deleteData := true; opt_versionId := reqVersionId |}
        | None => EngSkip
        end
      else EngMarker {| deleteData := false; opt_versionId := None |}
  end.

(** The engine seen through its callback [(err, options)].  The skip row is
    decided by the orchestrator before the engine is called, so it puts no
    constraint on the callback. *)
Definition engine_callback (out : EngineOutcome)
    (res : option Error * option DelOptions) : Prop :=
  match out with
  | EngSkip => True
  | EngDelete o | EngMarker o => res = (None, Some o)
  | EngError e => res.1 = Some e
  end.

Definition follows_decision_table {W} (E : Collaborators W) : Prop :=
  ∀ bucket bucketMD objectMD reqVersionId,
    engine_callback
      (decision_table (getVersioningConfiguration bucketMD) reqVersionId
         objectMD)
      (preprocessingVersioningDelete E bucket bucketMD objectMD reqVersionId).

(** ** The GET handler *)

Inductive GetOutcome :=
| GetOk (body : option string) (echoedVersionId : string)
| GetError (e : Error).

(** Modelled from the spec: the GET orchestrator ([objectGet], whose code is
    not part of the sources at hand; only its functional test is), following
    the five cases of its behavioural contract. *)
Definition objectGet (c : Codec) (chain : list Version)
    (reqToken : option string) : GetOutcome :=
  match reqToken with
  | None =>
      match resolveVersion chain None with
      | None => GetError (ArsenalErr errors.NoSuchKey)
      | Some v =>
          if v_isDeleteMarker v then GetError (ArsenalErr errors.NoSuchKey)
          else GetOk (v_content v) (encodeToken c (versionKey v))
      end
  | Some t =>
      match decodeToken c t with
      | inl e => GetError e
      | inr k =>
          match resolveVersion chain (Some k) with
          | None => GetError (ArsenalErr errors.NoSuchKey)
          | Some v =>
              if v_isDeleteMarker v
              then GetError (ArsenalErr errors.MethodNotAllowed)
              else GetOk (v_content v) (encodeToken c (versionKey v))
          end
      end
  end.

(** ** An in-memory backend *)

(** A small executable instance of [Collaborators]: one bucket holding the
    version chain of one key.  It is used to run the handler on concrete
    requests; the general theorems below do not depend on it. *)
Module InMemory.

Record Store := {
  bucket : string;
  versioning : option VersioningStatus;
  chain : list Version;
  clock : nat;
}.

Definition DecodeError : Error :=
  ArsenalErr
    (customizeDescription errors.InvalidArgument
       "Invalid version id specified").

(** Tokens are the internal key behind the prefix [id-]. *)
Definition codec : Codec :=
  {| encode := λ k, "id-" ++ k;
     decode := λ t,
       match t with
       | String "i"%char (String "d"%char (String "-"%char k)) => inr k
       | _ => inl DecodeError
       end |}.

Definition decodeVersionId (q : Query) : VidResult :=
  match q with
  | QObj params =>
      match get_prop params "versionId" with
      | VStr t =>
          if String.eqb t "" then VidValue None
          else match decodeToken codec t with
               | inl e => VidError e
               | inr k => VidValue (Some k)
               end
      | _ => VidValue None
      end
  | _ => VidValue None
  end.

Definition bucketMD_of (s : Store) : BucketMD :=
  {| bucketMD_name := bucket s;
     getVersioningConfiguration := versioning s |}.

Definition objectMD_of (v : Version) : ObjectMD :=
  {| content_length := (λ c, Z.of_nat (String.length c)) <$> v_content v;
     isDeleteMarker := v_isDeleteMarker v;
     md_versionId := Some (versionKey v) |}.

Definition NoSuchBucket : Error :=
  ArsenalErr
    {| errType := "NoSuchBucket"; errCode := 404; description := None |}.

Definition metadataValidateBucketAndObj (p : ValParams) (s : Store)
  : option Error * option BucketMD * option ObjectMD :=
  if String.eqb (vp_bucketName p) (bucket s)
  then (None, Some (bucketMD_of s),
        objectMD_of <$> resolveVersion (chain s) (vp_versionId p))
  else (Some NoSuchBucket, None, None).

Definition preprocessingVersioningDelete (_ : string) (bucketMD : BucketMD)
    (objectMD : option ObjectMD) (reqVersionId : option string)
  : option Error * option DelOptions :=
  match decision_table (getVersioningConfiguration bucketMD) reqVersionId
          objectMD with
  | EngDelete o | EngMarker o => (None, Some o)
  | EngError e => (Some e, None)
  | EngSkip => (None, None)
  end.

Definition remove_key (k : option string) (l : list Version)
  : list Version :=
  filter (λ v, Some (versionKey v) ≠ k) l.

Definition deleteObject (_ : string) (objectMD : ObjectMD) (_ : string)
    (o : DelOptions) (s : Store) : option Error * option OpResult * Store :=
  let target :=
    match opt_versionId o with
    | Some k => Some k
    | None => md_versionId objectMD
    end in
  (None, Some {| versionId := opt_versionId o |},
   {| bucket := bucket s; versioning := versioning s;
      chain := remove_key target (chain s); clock := clock s |}).

Fixpoint fresh_key (n : nat) : string :=
  match n with
  | O => "k"
  | S n => fresh_key n ++ "+"
  end.

Definition createAndStoreObject (_ : string) (_ : BucketMD) (_ : string)
    (_ : option ObjectMD) (_ : AuthInfo) (_ : string) (content : JsVal)
    (_ : Request) (marker : bool) (_ : JsVal) (s : Store)
  : option Error * option OpResult * Store :=
  let key :=
    match versioning s with
    | Some Enabled => fresh_key (clock s)
    | _ => "null"
    end in
  let v :=
    {| versionKey := key; v_isDeleteMarker := marker;
       v_content := match content with VStr c => Some c | _ => None end |} in
  (None,
   Some {| versionId := match versioning s with
                        | Some _ => Some key
                        | None => None
                        end |},
   {| bucket := bucket s; versioning := versioning s;
      chain := v :: remove_key (Some key) (chain s);
      clock := S (clock s) |}).

Definition collectCorsHeaders (origin : JsVal) (_ : string)
    (_ : option BucketMD) : JsObj :=
  match origin with
  | VStr o => {[ "access-control-allow-origin" := VStr o ]}
  | _ => ∅
  end.

Definition backend : Collaborators Store :=
  Build_Collaborators Store
    decodeVersionId metadataValidateBucketAndObj
    preprocessingVersioningDelete deleteObject createAndStoreObject
    collectCorsHeaders (encode codec).
End InMemory.

(** ** Vocabulary of the statements *)

(** The query carries a [versionId] key whose value is not [undefined]. *)
Definition carries_versionId (q : Query) : Prop :=
  ∃ params v,
    q = QObj params ∧ params !! "versionId" = Some v ∧ v ≠ VUndefined.

Definition version_headers : gset string :=
  {[ "x-amz-delete-marker"; "x-amz-version-id" ]}.

(** [h] is the object [cors] with at most the two version headers written
    into it: every CORS header name is still there, and every other header
    is untouched. *)
Definition extends_cors (cors h : JsObj) : Prop :=
  dom cors ⊆ dom h ∧ ∀ k, k ∉ version_headers → h !! k = cors !! k.

(** [delOptions && delOptions.deleteData], the test of [deleteOperation]. *)
Definition wants_delete (delOptions : option DelOptions) : bool :=
  match delOptions with
  | Some o => deleteData o
  | None => false
  end.

(** The validation task hands over to the next task: the object exists, or
    the bucket has a versioning configuration and the request names no
    version. *)
Definition validation_passes (bucketMD : BucketMD)
    (objectMD : option ObjectMD) (reqVersionId : option string) : Prop :=
  objectMD = None →
  getVersioningConfiguration bucketMD ≠ None ∧ truthy reqVersionId = false.

(** Modelled from the spec: the object-creation path is not part of the
    sources at hand; its interface is [createVersion(...) -> {versionId}]:
    a creation that reports no error hands over a result carrying the new
    version's id, a non-empty string.  Stated of one call back
    [(err, result)]. *)
Definition keeps_creation_contract (err : option Error)
    (res : option OpResult) : Prop :=
  err = None → ∃ vid, res = Some {| versionId := Some vid |} ∧ vid ≠ "".

(** Modelled from the spec: a delete marker is created only on a bucket
    where versioning is Enabled or Suspended, so object metadata flagged as
    a delete marker is only found in a bucket that has a versioning
    configuration. *)
Definition markers_need_versioning (bucketMD : BucketMD)
    (objectMD : option ObjectMD) : Prop :=
  ∀ md, objectMD = Some md → isDeleteMarker md = true →
        getVersioningConfiguration bucketMD ≠ None.

(** The [addDefaultFields] call of the validation task. *)
Definition bytes_logged (objectMD : option ObjectMD) : list Event :=
  match objectMD with
  | Some md =>
      match content_length md with
      | Some n => [EvAddDefaultFields n]
      | None => []
      end
  | None => []
  end.

(** ** Concrete requests and stores *)

Module Scenario.
Import InMemory.

Definition alice : AuthInfo :=
  {| isRequesterPublicUser := false; getCanonicalID := "alice" |}.

Definition anonymous : AuthInfo :=
  {| isRequesterPublicUser := true;
     getCanonicalID := "http://acs.amazonaws.com/groups/global/AllUsers" |}.

Definition delete_request (q : JsObj) : Request :=
  {| bucketName := "versioning-bucket"; objectKey := "objectKey";
     query := QObj q; headers_origin := VStr "http://example.org";
     method := "DELETE" |}.

Definition with_version (token : string) : JsObj :=
  {[ "versionId" := VStr token ]}.

Definition store (cfg : option VersioningStatus) (versions : list Version)
  : Store :=
  {| bucket := "versioning-bucket"; versioning := cfg; chain := versions;
     clock := length versions |}.

Definition an_object : Version :=
  {| versionKey := "k"; v_isDeleteMarker := false;
     v_content := Some "hello" |}.

Definition a_marker : Version :=
  {| versionKey := "k+"; v_isDeleteMarker := true; v_content := None |}.

Definition plain_object : Version :=
  {| versionKey := "null"; v_isDeleteMarker := false;
     v_content := Some "hello" |}.

Definition cors : JsObj :=
  {[ "access-control-allow-origin" := VStr "http://example.org" ]}.
End Scenario.

(** ** Runs of the handler, case by case *)

(** The ways a call of [objectDelete] can go, each with what the caller
    observes and the state it leaves; [objectDelete_run] below shows that
    every call is one of them. *)
Inductive Run {W} (E : Collaborators W) (authInfo : AuthInfo)
    (request : Request) (w : W) : Outcome → State W → Prop :=
| RunPublic :
    isRequesterPublicUser authInfo = true →
    Run E authInfo request w
      (Called (Some (ArsenalErr errors.AccessDenied)) None) (initial w)
| RunDecodeError e params :
    isRequesterPublicUser authInfo = false →
    decodeVersionId E (query request) = VidError e →
    query request = QObj params →
    Run E authInfo request w (Called (Some e) None) (initial w)
| RunDecodeThrows e :
    isRequesterPublicUser authInfo = false →
    decodeVersionId E (query request) = VidError e →
    (∀ params, query request ≠ QObj params) →
    Run E authInfo request w Threw (initial w)
| RunValidationError v err bucketMD objectMD :
    isRequesterPublicUser authInfo = false →
    decodeVersionId E (query request) = VidValue v →
    metadataValidateBucketAndObj E (valParams authInfo request v) w
    = (Some err, bucketMD, objectMD) →
    Run E authInfo request w
      (Called (Some err)
         (Some (collectCorsHeaders E (headers_origin request)
                  (method request) bucketMD)))
      {| world := w; events := [EvValidate (valParams authInfo request v)] |}
| RunNoBucketMD v objectMD :
    isRequesterPublicUser authInfo = false →
    decodeVersionId E (query request) = VidValue v →
    metadataValidateBucketAndObj E (valParams authInfo request v) w
    = (None, None, objectMD) →
    Run E authInfo request w Threw
      {| world := w; events := [EvValidate (valParams authInfo request v)] |}
| RunNoSuchKey v bucketMD :
    isRequesterPublicUser authInfo = false →
    decodeVersionId E (query request) = VidValue v →
    metadataValidateBucketAndObj E (valParams authInfo request v) w
    = (None, Some bucketMD, None) →
    getVersioningConfiguration bucketMD = None →
    Run E authInfo request w
      (Called (Some (ArsenalErr errors.NoSuchKey))
         (Some (collectCorsHeaders E (headers_origin request)
                  (method request) (Some bucketMD))))
      {| world := w; events := [EvValidate (valParams authInfo request v)] |}
| RunSkip v bucketMD :
    isRequesterPublicUser authInfo = false →
    decodeVersionId E (query request) = VidValue v →
    metadataValidateBucketAndObj E (valParams authInfo request v) w
    = (None, Some bucketMD, None) →
    getVersioningConfiguration bucketMD ≠ None →
    truthy v = true →
    Run E authInfo request w
      (Called None
         (Some (collectCorsHeaders E (headers_origin request)
                  (method request) (Some bucketMD))))
      {| world := w; events := [EvValidate (valParams authInfo request v)] |}
| RunPreprocessError v bucketMD objectMD err delOptions :
    isRequesterPublicUser authInfo = false →
    decodeVersionId E (query request) = VidValue v →
    metadataValidateBucketAndObj E (valParams authInfo request v) w
    = (None, Some bucketMD, objectMD) →
    validation_passes bucketMD objectMD v →
    preprocessingVersioningDelete E (bucketName request) bucketMD objectMD v
    = (Some err, delOptions) →
    Run E authInfo request w
      (Called (Some err)
         (Some (collectCorsHeaders E (headers_origin request)
                  (method request) (Some bucketMD))))
      {| world := w;
         events := EvValidate (valParams authInfo request v)
                   :: bytes_logged objectMD |}
| RunDeleteNoObject v bucketMD o :
    isRequesterPublicUser authInfo = false →
    decodeVersionId E (query request) = VidValue v →
    metadataValidateBucketAndObj E (valParams authInfo request v) w
    = (None, Some bucketMD, None) →
    validation_passes bucketMD None v →
    preprocessingVersioningDelete E (bucketName request) bucketMD None v
    = (None, Some o) →
    deleteData o = true →
    Run E authInfo request w Threw
      {| world := w; events := [EvValidate (valParams authInfo request v)] |}
| RunDeleteFailed v bucketMD md o err delResult w' :
    isRequesterPublicUser authInfo = false →
    decodeVersionId E (query request) = VidValue v →
    metadataValidateBucketAndObj E (valParams authInfo request v) w
    = (None, Some bucketMD, Some md) →
    preprocessingVersioningDelete E (bucketName request) bucketMD (Some md) v
    = (None, Some o) →
    deleteData o = true →
    services_deleteObject E (bucketName request) md (objectKey request) o w
    = (Some err, delResult, w') →
    Run E authInfo request w
      (Called (Some err)
         (Some (collectCorsHeaders E (headers_origin request)
                  (method request) (Some bucketMD))))
      {| world := w';
         events := EvValidate (valParams authInfo request v)
                   :: bytes_logged (Some md)
                   ++ [EvDeleteObject (bucketName request) md
                         (objectKey request) o] |}
| RunDeleted v bucketMD md o delResult w' :
    isRequesterPublicUser authInfo = false →
    decodeVersionId E (query request) = VidValue v →
    metadataValidateBucketAndObj E (valParams authInfo request v) w
    = (None, Some bucketMD, Some md) →
    preprocessingVersioningDelete E (bucketName request) bucketMD (Some md) v
    = (None, Some o) →
    deleteData o = true →
    services_deleteObject E (bucketName request) md (objectKey request) o w
    = (None, delResult, w') →
    Run E authInfo request w
      (Called None
         (Some (versionDeletedHeaders E v
                  (collectCorsHeaders E (headers_origin request)
                     (method request) (Some bucketMD))
                  {| removeDeleteMarker := isDeleteMarker md;
                     newDeleteMarker := false |})))
      {| world := w';
         events := EvValidate (valParams authInfo request v)
                   :: bytes_logged (Some md)
                   ++ [EvDeleteObject (bucketName request) md
                         (objectKey request) o;
                       EvPushMetric "deleteObject"
                         (DeleteObjectParams authInfo (bucketName request)
                            (content_length md) 1)] |}
| RunCreateFailed v bucketMD objectMD delOptions err res w' :
    isRequesterPublicUser authInfo = false →
    decodeVersionId E (query request) = VidValue v →
    metadataValidateBucketAndObj E (valParams authInfo request v) w
    = (None, Some bucketMD, objectMD) →
    validation_passes bucketMD objectMD v →
    preprocessingVersioningDelete E (bucketName request) bucketMD objectMD v
    = (None, delOptions) →
    wants_delete delOptions = false →
    createAndStoreObject E (bucketName request) bucketMD (objectKey request)
      objectMD authInfo (getCanonicalID authInfo) VNull request true VNull w
    = (Some err, res, w') →
    Run E authInfo request w
      (Called (Some err)
         (Some (collectCorsHeaders E (headers_origin request)
                  (method request) (Some bucketMD))))
      {| world := w';
         events := EvValidate (valParams authInfo request v)
                   :: bytes_logged objectMD
                   ++ [EvCreateAndStore (bucketName request) bucketMD
                         (objectKey request) objectMD authInfo
                         (getCanonicalID authInfo) VNull request true
                         VNull] |}
| RunCreatedNoResult v bucketMD objectMD delOptions w' :
    isRequesterPublicUser authInfo = false →
    decodeVersionId E (query request) = VidValue v →
    metadataValidateBucketAndObj E (valParams authInfo request v) w
    = (None, Some bucketMD, objectMD) →
    validation_passes bucketMD objectMD v →
    preprocessingVersioningDelete E (bucketName request) bucketMD objectMD v
    = (None, delOptions) →
    wants_delete delOptions = false →
    createAndStoreObject E (bucketName request) bucketMD (objectKey request)
      objectMD authInfo (getCanonicalID authInfo) VNull request true VNull w
    = (None, None, w') →
    Run E authInfo request w Threw
      {| world := w';
         events := EvValidate (valParams authInfo request v)
                   :: bytes_logged objectMD
                   ++ [EvCreateAndStore (bucketName request) bucketMD
                         (objectKey request) objectMD authInfo
                         (getCanonicalID authInfo) VNull request true
                         VNull] |}
| RunCreated v bucketMD objectMD delOptions result w' :
    isRequesterPublicUser authInfo = false →
    decodeVersionId E (query request) = VidValue v →
    metadataValidateBucketAndObj E (valParams authInfo request v) w
    = (None, Some bucketMD, objectMD) →
    validation_passes bucketMD objectMD v →
    preprocessingVersioningDelete E (bucketName request) bucketMD objectMD v
    = (None, delOptions) →
    wants_delete delOptions = false →
    createAndStoreObject E (bucketName request) bucketMD (objectKey request)
      objectMD authInfo (getCanonicalID authInfo) VNull request true VNull w
    = (None, Some result, w') →
    Run E authInfo request w
      (Called None
         (Some (markerCreatedHeaders E
                  (collectCorsHeaders E (headers_origin request)
                     (method request) (Some bucketMD))
                  result)))
      {| world := w';
         events := EvValidate (valParams authInfo request v)
                   :: bytes_logged objectMD
                   ++ [EvCreateAndStore (bucketName request) bucketMD
                         (objectKey request) objectMD authInfo
                         (getCanonicalID authInfo) VNull request true VNull;
                       EvPushMetric "putObject"
                         (PutObjectParams authInfo (bucketName request)
                            0 0)] |}.

(** ** Backends that fail *)

(** Variants of the in-memory backend in which one collaborator calls back
    with an error, or breaks its contract. *)
Module Faults.
Import InMemory.

Definition InternalError : Error :=
  ArsenalErr
    {| errType := "InternalError"; errCode := 500; description := None |}.

Definition failingEngine (_ : string) (_ : BucketMD) (_ : option ObjectMD)
    (_ : option string) : option Error * option DelOptions :=
  (Some InternalError, None).

Definition failingDelete (_ : string) (_ : ObjectMD) (_ : string)
    (_ : DelOptions) (s : Store) : option Error * option OpResult * Store :=
  (Some InternalError, None, s).

Definition failingCreate (_ : string) (_ : BucketMD) (_ : string)
    (_ : option ObjectMD) (_ : AuthInfo) (_ : string) (_ : JsVal)
    (_ : Request) (_ : bool) (_ : JsVal) (s : Store)
  : option Error * option OpResult * Store :=
  (Some InternalError, None, s).

Definition engine_fails : Collaborators Store :=
  Build_Collaborators Store
    decodeVersionId metadataValidateBucketAndObj
    failingEngine deleteObject createAndStoreObject
    collectCorsHeaders (encode codec).

Definition delete_fails : Collaborators Store :=
  Build_Collaborators Store
    decodeVersionId metadataValidateBucketAndObj
    preprocessingVersioningDelete failingDelete createAndStoreObject
    collectCorsHeaders (encode codec).

Definition create_fails : Collaborators Store :=
  Build_Collaborators Store
    decodeVersionId metadataValidateBucketAndObj
    preprocessingVersioningDelete deleteObject failingCreate
    collectCorsHeaders (encode codec).
End Faults.

(** ** Helpers of the functional test *)

(** The error object the S3 client hands to a test callback: the fields the
    helpers read. *)
Record ClientError := {
  code : JsVal;
  statusCode : JsVal;
}.

(** [_assertNoError(err, desc)]: [assert.ifError(err, ...)].  The result
    tells whether the helper returns ([true]) or throws ([false]); [None]
    is the [null] of a successful call. *)
Definition _assertNoError (err : option ClientError) (desc : string) : bool :=
  match err with
  | None => true
  | Some _ => false
  end.

(** [_assertError(err, statusCode, code)]: [assert.notEqual(err, null)],
    then [assert.strictEqual] on [err.code] and on [err.statusCode]. *)
Definition _assertError (err : option ClientError)
    (expectedStatus expectedCode : JsVal) : bool :=
  match err with
  | None => false
  | Some e =>
      bool_decide (code e = expectedCode)
      && bool_decide (statusCode e = expectedStatus)
  end.

(** * Properties *)

(** ** Query guard *)

Lemma get_prop_defined (params : JsObj) (k : string) :
  get_prop params k ≠ VUndefined ↔ ∃ v, params !! k = Some v ∧ v ≠ VUndefined.
Proof.
  unfold get_prop. destruct (params !! k) as [v|]; simpl.
  - split; [intros H; exists v; done | intros (v' & [= <-] & H); done].
  - split; [done | intros (v' & ? & _); done].
Qed.

(** C6: [checkQueryVersionId] returns the InvalidArgument error customized
    with "This operation does not accept a version-id." exactly when the
    query carries a [versionId] key with a defined value, and returns
    [undefined] otherwise; a [versionId] set to the empty string is rejected
    while a query without the key is accepted. *)
Theorem checkQueryVersionId_spec (query : Query) :
  let rejected :=
    {| errType := "InvalidArgument"; errCode := 400;
       description := Some "This operation does not accept a version-id." |} in
  (carries_versionId query ↔ checkQueryVersionId query = Some rejected)
  ∧ (¬ carries_versionId query ↔ checkQueryVersionId query = None)
  ∧ (∀ params,
       checkQueryVersionId (QObj (<["versionId" := VStr ""]> params))
       = Some rejected)
  ∧ (∀ params,
       checkQueryVersionId (QObj (delete "versionId" params)) = None).
Proof.
  cbn zeta.
  assert (Hchar : ∀ q,
    (carries_versionId q → checkQueryVersionId q
       = Some (customizeDescription errors.InvalidArgument customMsg))
    ∧ (¬ carries_versionId q → checkQueryVersionId q = None)).
  { intros [| |params]; simpl.
    - split; [intros (p & v & [=] & _) | done].
    - split; [intros (p & v & [=] & _) | done].
    - case_decide as Hd.
      + split; [done |]. intros Hn. exfalso. apply Hn.
        apply get_prop_defined in Hd as (v & Hv & Hne). by exists params, v.
      + split; [| done]. intros (p & v & [= <-] & Hv & Hne).
        unfold get_prop in Hd. rewrite Hv in Hd. simpl in Hd. congruence. }
  assert (Hdec : ∀ q, carries_versionId q ∨ ¬ carries_versionId q).
  { intros [| |params].
    - right. intros (p & v & [=] & _).
    - right. intros (p & v & [=] & _).
    - destruct (decide (get_prop params "versionId" ≠ VUndefined)) as [Hd|Hd].
      + left. apply get_prop_defined in Hd as (v & ? & ?). by exists params, v.
      + right. intros (p & v & [= <-] & ? & ?). apply Hd.
        apply get_prop_defined. eauto. }
  repeat split.
  - apply Hchar.
  - intros Heq. destruct (Hdec query) as [|Hn]; [done |].
    apply Hchar in Hn. rewrite Hn in Heq. done.
  - apply Hchar.
  - intros Heq. intros Hc. apply Hchar in Hc. rewrite Hc in Heq. done.
  - intros params. apply Hchar. exists (<["versionId" := VStr ""]> params), (VStr "").
    split; [done |]. split; [apply lookup_insert_eq | done].
  - intros params. apply Hchar. intros (p & v & [= <-] & Hv & _).
    by rewrite lookup_delete_eq in Hv.
Qed.

(** ** Runs of the DELETE handler *)

Section Runs.
Context {W : Type} (E : Collaborators W).
Variables (authInfo : AuthInfo) (request : Request) (w : W).

Local Abbreviation bn := (bucketName request).
Local Abbreviation key := (objectKey request).
Local Abbreviation cors bucketMD :=
  (collectCorsHeaders E (headers_origin request) (method request) bucketMD).

Lemma run_public :
  isRequesterPublicUser authInfo = true →
  objectDelete E authInfo request w
  = (Called (Some (ArsenalErr errors.AccessDenied)) None, initial w).
Proof. intros Hpub. unfold objectDelete. by rewrite Hpub. Qed.

Lemma run_decode_error (e : Error) (params : JsObj) :
  isRequesterPublicUser authInfo = false →
  decodeVersionId E (query request) = VidError e →
  query request = QObj params →
  objectDelete E authInfo request w = (Called (Some e) None, initial w).
Proof.
  intros Hpub Hdec Hquery. unfold objectDelete. rewrite Hpub, Hdec.
  by rewrite Hquery.
Qed.

Lemma run_decode_throws (e : Error) :
  isRequesterPublicUser authInfo = false →
  decodeVersionId E (query request) = VidError e →
  (∀ params, query request ≠ QObj params) →
  objectDelete E authInfo request w = (Threw, initial w).
Proof.
  intros Hpub Hdec Hquery. unfold objectDelete. rewrite Hpub, Hdec.
  destruct (query request) as [| |params]; [done | done |].
  by destruct (Hquery params).
Qed.

Lemma run_waterfall (v : option string) :
  isRequesterPublicUser authInfo = false →
  decodeVersionId E (query request) = VidValue v →
  objectDelete E authInfo request w
  = match waterfall E authInfo request v (initial w) with
    | (Some e, st) => finalCallback E authInfo request v e st
    | (None, st) => (Threw, st)
    end.
Proof. intros Hpub Hdec. unfold objectDelete. by rewrite Hpub, Hdec. Qed.

(** The validation task stops the waterfall with an error. *)
Lemma run_validation_error (v : option string) (err : Error)
    (bucketMD : option BucketMD) (objectMD : option ObjectMD) :
  isRequesterPublicUser authInfo = false →
  decodeVersionId E (query request) = VidValue v →
  metadataValidateBucketAndObj E (valParams authInfo request v) w
  = (Some err, bucketMD, objectMD) →
  objectDelete E authInfo request w
  = (Called (Some err) (Some (cors bucketMD)),
     {| world := w; events := [EvValidate (valParams authInfo request v)] |}).
Proof.
  intros Hpub Hdec Hval. rewrite (run_waterfall v) by done.
  unfold waterfall, validateBucketAndObj. simpl. by rewrite Hval.
Qed.

Lemma run_no_such_key (v : option string) (bucketMD : BucketMD) :
  isRequesterPublicUser authInfo = false →
  decodeVersionId E (query request) = VidValue v →
  metadataValidateBucketAndObj E (valParams authInfo request v) w
  = (None, Some bucketMD, None) →
  getVersioningConfiguration bucketMD = None →
  objectDelete E authInfo request w
  = (Called (Some (ArsenalErr errors.NoSuchKey)) (Some (cors (Some bucketMD))),
     {| world := w; events := [EvValidate (valParams authInfo request v)] |}).
Proof.
  intros Hpub Hdec Hval Hcfg. rewrite (run_waterfall v) by done.
  unfold waterfall, validateBucketAndObj. simpl. by rewrite Hval, Hcfg.
Qed.

Lemma run_skip (v : option string) (bucketMD : BucketMD) :
  isRequesterPublicUser authInfo = false →
  decodeVersionId E (query request) = VidValue v →
  metadataValidateBucketAndObj E (valParams authInfo request v) w
  = (None, Some bucketMD, None) →
  getVersioningConfiguration bucketMD ≠ None →
  truthy v = true →
  objectDelete E authInfo request w
  = (Called None (Some (cors (Some bucketMD))),
     {| world := w; events := [EvValidate (valParams authInfo request v)] |}).
Proof.
  intros Hpub Hdec Hval Hcfg Hv. rewrite (run_waterfall v) by done.
  unfold waterfall, validateBucketAndObj. simpl. rewrite Hval.
  destruct (getVersioningConfiguration bucketMD); [| done].
  by rewrite Hv.
Qed.

(** The validation task passes its result on. *)
Lemma validate_passes (v : option string) (bucketMD : BucketMD)
    (objectMD : option ObjectMD) :
  metadataValidateBucketAndObj E (valParams authInfo request v) w
  = (None, Some bucketMD, objectMD) →
  validation_passes bucketMD objectMD v →
  validateBucketAndObj E authInfo request v (initial w)
  = (Continue (bucketMD, objectMD),
     {| world := w;
        events := EvValidate (valParams authInfo request v)
                  :: bytes_logged objectMD |}).
Proof.
  intros Hval Hpass. unfold validateBucketAndObj. simpl. rewrite Hval.
  destruct objectMD as [md|]; simpl.
  - by destruct (content_length md).
  - destruct (Hpass eq_refl) as [Hcfg Hv].
    destruct (getVersioningConfiguration bucketMD); [| done].
    by rewrite Hv.
Qed.

(** The run up to the end of [createAndStoreObject]. *)
Lemma run_create (v : option string) (bucketMD : BucketMD)
    (objectMD : option ObjectMD) (delOptions : option DelOptions)
    (err : option Error) (res : option OpResult) (w' : W) :
  isRequesterPublicUser authInfo = false →
  decodeVersionId E (query request) = VidValue v →
  metadataValidateBucketAndObj E (valParams authInfo request v) w
  = (None, Some bucketMD, objectMD) →
  validation_passes bucketMD objectMD v →
  preprocessingVersioningDelete E bn bucketMD objectMD v
  = (None, delOptions) →
  wants_delete delOptions = false →
  createAndStoreObject E bn bucketMD key objectMD authInfo
    (getCanonicalID authInfo) VNull request true VNull w = (err, res, w') →
  objectDelete E authInfo request w
  = finalCallback E authInfo request v
      {| w_err := Foreign <$> err; w_bucketMD := Some bucketMD;
         w_objectMD := objectMD; w_result := res;
         w_deleteInfo := Some {| removeDeleteMarker := false;
                                 newDeleteMarker := true |} |}
      {| world := w';
         events := EvValidate (valParams authInfo request v)
                   :: bytes_logged objectMD
                   ++ [EvCreateAndStore bn bucketMD key objectMD authInfo
                         (getCanonicalID authInfo) VNull request true
                         VNull] |}.
Proof.
  intros Hpub Hdec Hval Hpass Hpre Hwant Hcreate.
  rewrite (run_waterfall v) by done. unfold waterfall.
  rewrite (validate_passes v bucketMD objectMD) by done.
  unfold getVersioningInfo. rewrite Hpre.
  assert (Hop : deleteOperation E authInfo request bucketMD objectMD
                  delOptions
                  {| world := w;
                     events := EvValidate (valParams authInfo request v)
                               :: bytes_logged objectMD |}
                = putDeleteMarker E authInfo request bucketMD objectMD
                    {| world := w;
                       events := EvValidate (valParams authInfo request v)
                                 :: bytes_logged objectMD |}).
  { unfold deleteOperation. destruct delOptions as [o|]; [| done].
    simpl in Hwant. by rewrite Hwant. }
  rewrite Hop. unfold putDeleteMarker. simpl.
  by rewrite Hcreate.
Qed.

(** The run up to the end of [services.deleteObject]. *)
Lemma run_delete (v : option string) (bucketMD : BucketMD)
    (md : ObjectMD) (o : DelOptions)
    (err : option Error) (res : option OpResult) (w' : W) :
  isRequesterPublicUser authInfo = false →
  decodeVersionId E (query request) = VidValue v →
  metadataValidateBucketAndObj E (valParams authInfo request v) w
  = (None, Some bucketMD, Some md) →
  preprocessingVersioningDelete E bn bucketMD (Some md) v
  = (None, Some o) →
  deleteData o = true →
  services_deleteObject E bn md key o w = (err, res, w') →
  objectDelete E authInfo request w
  = finalCallback E authInfo request v
      {| w_err := Foreign <$> err; w_bucketMD := Some bucketMD;
         w_objectMD := Some md; w_result := res;
         w_deleteInfo := Some {| removeDeleteMarker := isDeleteMarker md;
                                 newDeleteMarker := false |} |}
      {| world := w';
         events := EvValidate (valParams authInfo request v)
                   :: bytes_logged (Some md)
                   ++ [EvDeleteObject bn md key o] |}.
Proof.
  intros Hpub Hdec Hval Hpre Hdel Hcall.
  rewrite (run_waterfall v) by done. unfold waterfall.
  rewrite (validate_passes v bucketMD (Some md)) by done.
  unfold getVersioningInfo. rewrite Hpre.
  unfold deleteOperation. rewrite Hdel. unfold removeVersion. simpl.
  by rewrite Hcall.
Qed.
End Runs.

(** ** Validation failures, early exits and the skip outcome *)

(** C7: the validation stage fails with AccessDenied for a public user,
    before any metadata lookup or mutation (no call is made, the store is
    untouched); it fails with NoSuchKey when validation finds no object
    metadata and the bucket has no versioning configuration; and any error
    of the metadata layer reaches the caller unchanged. *)
Theorem validation_failures {W} (E : Collaborators W) (authInfo : AuthInfo)
    (request : Request) (w : W) :
  let cors :=
    collectCorsHeaders E (headers_origin request) (method request) in
  (isRequesterPublicUser authInfo = true →
   objectDelete E authInfo request w
   = (Called (Some (ArsenalErr errors.AccessDenied)) None,
      {| world := w; events := [] |}))
  ∧ (∀ v bucketMD,
       isRequesterPublicUser authInfo = false →
       decodeVersionId E (query request) = VidValue v →
       metadataValidateBucketAndObj E (valParams authInfo request v) w
       = (None, Some bucketMD, None) →
       getVersioningConfiguration bucketMD = None →
       objectDelete E authInfo request w
       = (Called (Some (ArsenalErr errors.NoSuchKey))
            (Some (cors (Some bucketMD))),
          {| world := w;
             events := [EvValidate (valParams authInfo request v)] |}))
  ∧ (∀ v err bucketMD objectMD,
       isRequesterPublicUser authInfo = false →
       decodeVersionId E (query request) = VidValue v →
       metadataValidateBucketAndObj E (valParams authInfo request v) w
       = (Some err, bucketMD, objectMD) →
       objectDelete E authInfo request w
       = (Called (Some err) (Some (cors bucketMD)),
          {| world := w;
             events := [EvValidate (valParams authInfo request v)] |})).
Proof.
  cbn zeta. split; [| split].
  - intros Hpub. by apply run_public.
  - intros v bucketMD Hpub Hdec Hval Hcfg. by apply run_no_such_key.
  - intros v err bucketMD objectMD Hpub Hdec Hval.
    by apply run_validation_error with objectMD.
Qed.

(** The three failures on the in-memory backend: an anonymous requester, a
    missing key on a bucket without versioning, a bucket the metadata layer
    does not know. *)
Lemma validation_failures_witness :
  objectDelete InMemory.backend Scenario.anonymous
    (Scenario.delete_request ∅) (Scenario.store (Some Enabled) [])
  = (Called (Some (ArsenalErr errors.AccessDenied)) None,
     {| world := Scenario.store (Some Enabled) []; events := [] |})
  ∧ (objectDelete InMemory.backend Scenario.alice
       (Scenario.delete_request ∅) (Scenario.store None [])).1
    = Called (Some (ArsenalErr errors.NoSuchKey)) (Some Scenario.cors)
  ∧ (objectDelete InMemory.backend Scenario.alice
       {| bucketName := "no-such-bucket"; objectKey := "objectKey";
          query := QObj ∅; headers_origin := VNull; method := "DELETE" |}
       (Scenario.store None [])).1
    = Called (Some InMemory.NoSuchBucket) (Some ∅).
Proof.
  split; [| split].
  - apply (validation_failures InMemory.backend). reflexivity.
  - erewrite (proj1 (proj2 (validation_failures InMemory.backend _ _ _)));
      [reflexivity | reflexivity | reflexivity | reflexivity | reflexivity].
  - erewrite (proj2 (proj2 (validation_failures InMemory.backend _ _ _)));
      [reflexivity | reflexivity | reflexivity | reflexivity].
Defined.

(** C8, as amended: for a requester other than the public user whose query
    object carries a version id token that fails to decode, [objectDelete]
    calls back at once with the decode error and no response headers; no
    collaborator is called (no metadata validation, no mutation, no storage
    lookup with the token) and the store is untouched. *)
Theorem decode_error_exits_early {W} (E : Collaborators W)
    (authInfo : AuthInfo) (request : Request) (w : W) (params : JsObj)
    (e : Error) :
  isRequesterPublicUser authInfo = false →
  query request = QObj params →
  decodeVersionId E (query request) = VidError e →
  objectDelete E authInfo request w
  = (Called (Some e) None, {| world := w; events := [] |}).
Proof. intros Hpub Hquery Hdec. by apply run_decode_error with params. Qed.

(** A tampered token sent by an authenticated requester. *)
Lemma decode_error_exits_early_witness :
  objectDelete InMemory.backend Scenario.alice
    (Scenario.delete_request (Scenario.with_version "tampered"))
    (Scenario.store (Some Enabled) [Scenario.an_object])
  = (Called (Some InMemory.DecodeError) None,
     {| world := Scenario.store (Some Enabled) [Scenario.an_object];
        events := [] |}).
Proof.
  apply (decode_error_exits_early InMemory.backend Scenario.alice
           (Scenario.delete_request (Scenario.with_version "tampered"))
           (Scenario.store (Some Enabled) [Scenario.an_object])
           (Scenario.with_version "tampered"));
    reflexivity.
Defined.

(** C8 as stated fails for the public user: with a token that does not
    decode, the request is answered AccessDenied, not the decode error. *)
Lemma decode_error_masked_for_public_user :
  let request := Scenario.delete_request (Scenario.with_version "tampered") in
  let r := objectDelete InMemory.backend Scenario.anonymous request
             (Scenario.store (Some Enabled) [Scenario.an_object]) in
  decodeVersionId InMemory.backend (query request)
  = VidError InMemory.DecodeError
  ∧ r.1 = Called (Some (ArsenalErr errors.AccessDenied)) None
  ∧ r.1 ≠ Called (Some InMemory.DecodeError) None.
Proof. cbn zeta. split; [reflexivity |]. split; [reflexivity | discriminate]. Qed.

(** C2: a DELETE that names an explicit version id, on a bucket with a
    versioning configuration, for which validation finds no object
    metadata, ends as a success whose headers are exactly the CORS headers;
    the store is unchanged, the only call made is the metadata lookup (no
    mutation, no metric), and the caller's error slot is empty. *)
Theorem delete_missing_version_skips {W} (E : Collaborators W)
    (authInfo : AuthInfo) (request : Request) (w : W) (vid : string)
    (bucketMD : BucketMD) :
  isRequesterPublicUser authInfo = false →
  decodeVersionId E (query request) = VidValue (Some vid) →
  vid ≠ "" →
  metadataValidateBucketAndObj E (valParams authInfo request (Some vid)) w
  = (None, Some bucketMD, None) →
  getVersioningConfiguration bucketMD ≠ None →
  let r := objectDelete E authInfo request w in
  r.1 = Called None
          (Some (collectCorsHeaders E (headers_origin request)
                   (method request) (Some bucketMD)))
  ∧ world r.2 = w
  ∧ events r.2 = [EvValidate (valParams authInfo request (Some vid))]
  ∧ Forall (λ ev, is_mutation ev = false ∧ is_metric ev = false) (events r.2).
Proof.
  intros Hpub Hdec Hvid Hval Hcfg. cbn zeta.
  rewrite (run_skip E authInfo request w (Some vid) bucketMD); try done.
  - simpl. repeat split. by repeat constructor.
  - simpl. by apply negb_true_iff, String.eqb_neq.
Qed.

(** Deleting a version id that the chain does not hold. *)
Lemma delete_missing_version_skips_witness :
  let r := objectDelete InMemory.backend Scenario.alice
             (Scenario.delete_request (Scenario.with_version "id-k+++"))
             (Scenario.store (Some Enabled) [Scenario.an_object]) in
  r.1 = Called None (Some Scenario.cors)
  ∧ world r.2 = Scenario.store (Some Enabled) [Scenario.an_object]
  ∧ events r.2
    = [EvValidate
         (valParams Scenario.alice
            (Scenario.delete_request (Scenario.with_version "id-k+++"))
            (Some "k+++"))]
  ∧ Forall (λ ev, is_mutation ev = false ∧ is_metric ev = false) (events r.2).
Proof.
  apply (delete_missing_version_skips InMemory.backend Scenario.alice
           (Scenario.delete_request (Scenario.with_version "id-k+++"))
           (Scenario.store (Some Enabled) [Scenario.an_object]) "k+++"
           (InMemory.bucketMD_of
              (Scenario.store (Some Enabled) [Scenario.an_object])));
    [reflexivity | reflexivity | discriminate | reflexivity | discriminate].
Defined.

(** ** The final callback *)

Lemma truthy_Some (s : string) : truthy (Some s) = true ↔ s ≠ "".
Proof. simpl. rewrite negb_true_iff. apply String.eqb_neq. Qed.

Lemma header_version_id_spec {W} (E : Collaborators W) (vid : string) :
  header_version_id E vid
  = VStr (if String.eqb vid "null" then "null" else versionIdUtils_encode E vid).
Proof.
  unfold header_version_id. destruct (String.eqb_spec vid "null"); by subst.
Qed.

Lemma markerCreatedHeaders_set {W} (E : Collaborators W) (cors : JsObj)
    (result : OpResult) (vid : string) :
  versionId result = Some vid → vid ≠ "" →
  markerCreatedHeaders E cors result
  = <["x-amz-version-id" := header_version_id E vid]>
      (<["x-amz-delete-marker" := VBool true]> cors).
Proof.
  intros Hres Hvid. unfold markerCreatedHeaders. rewrite Hres.
  by rewrite (proj2 (truthy_Some vid) Hvid).
Qed.

Lemma markerCreatedHeaders_unset {W} (E : Collaborators W) (cors : JsObj)
    (result : OpResult) :
  truthy (versionId result) = false →
  markerCreatedHeaders E cors result = cors.
Proof.
  intros Hres. unfold markerCreatedHeaders.
  destruct (versionId result) as [vid|]; [by rewrite Hres | done].
Qed.

Lemma versionDeletedHeaders_set {W} (E : Collaborators W) (cors : JsObj)
    (vid : string) (deleteInfo : DeleteInfo) :
  vid ≠ "" →
  versionDeletedHeaders E (Some vid) cors deleteInfo
  = if removeDeleteMarker deleteInfo
    then <["x-amz-delete-marker" := VBool true]>
           (<["x-amz-version-id" := header_version_id E vid]> cors)
    else <["x-amz-version-id" := header_version_id E vid]> cors.
Proof.
  intros Hvid. unfold versionDeletedHeaders.
  by rewrite (proj2 (truthy_Some vid) Hvid).
Qed.

Lemma versionDeletedHeaders_unset {W} (E : Collaborators W) (cors : JsObj)
    (v : option string) (deleteInfo : DeleteInfo) :
  truthy v = false →
  versionDeletedHeaders E v cors deleteInfo = cors.
Proof.
  intros Hv. unfold versionDeletedHeaders.
  destruct v as [vid|]; [by rewrite Hv | done].
Qed.

Lemma extends_cors_refl (cors : JsObj) : extends_cors cors cors.
Proof. by split. Qed.

Lemma extends_cors_insert (cors h : JsObj) (k : string) (x : JsVal) :
  k ∈ version_headers → extends_cors cors h → extends_cors cors (<[k := x]> h).
Proof.
  intros Hk [Hdom Hother]. split.
  - rewrite dom_insert_L. etrans; [exact Hdom | apply union_subseteq_r].
  - intros k' Hk'. rewrite lookup_insert_ne; [by apply Hother |].
    intros Heq. apply Hk'. by rewrite <- Heq.
Qed.

(** When the CORS headers use neither version header name, the response
    contains them all, names and values. *)
Lemma extends_cors_subseteq (cors h : JsObj) :
  extends_cors cors h →
  (∀ k, k ∈ version_headers → cors !! k = None) →
  cors ⊆ h.
Proof.
  intros [_ Hother] Hfree. apply map_subseteq_spec. intros k x Hk.
  destruct (decide (k ∈ version_headers)) as [Hin|Hout].
  - rewrite (Hfree k Hin) in Hk. done.
  - by rewrite Hother.
Qed.

Lemma markerCreatedHeaders_extends {W} (E : Collaborators W) (cors : JsObj)
    (result : OpResult) :
  extends_cors cors (markerCreatedHeaders E cors result).
Proof.
  unfold markerCreatedHeaders.
  destruct (versionId result) as [vid|]; [| apply extends_cors_refl].
  destruct (truthy (Some vid)); [| apply extends_cors_refl].
  apply extends_cors_insert; [unfold version_headers; set_solver |].
  apply extends_cors_insert; [unfold version_headers; set_solver |].
  apply extends_cors_refl.
Qed.

Lemma versionDeletedHeaders_extends {W} (E : Collaborators W) (cors : JsObj)
    (v : option string) (deleteInfo : DeleteInfo) :
  extends_cors cors (versionDeletedHeaders E v cors deleteInfo).
Proof.
  unfold versionDeletedHeaders.
  destruct v as [vid|]; [| apply extends_cors_refl].
  destruct (truthy (Some vid)); [| apply extends_cors_refl].
  destruct (removeDeleteMarker deleteInfo).
  - apply extends_cors_insert; [unfold version_headers; set_solver |].
    apply extends_cors_insert; [unfold version_headers; set_solver |].
    apply extends_cors_refl.
  - apply extends_cors_insert; [unfold version_headers; set_solver |].
    apply extends_cors_refl.
Qed.

(** The bucket metadata the final callback receives is the one validation
    called back with. *)
Lemma waterfall_bucketMD {W} (E : Collaborators W) (authInfo : AuthInfo)
    (request : Request) (v : option string) (w : W) (e : WaterfallEnd)
    (st : State W) :
  waterfall E authInfo request v (initial w) = (Some e, st) →
  w_bucketMD e
  = (metadataValidateBucketAndObj E (valParams authInfo request v) w).1.2.
Proof.
  unfold waterfall, validateBucketAndObj. simpl.
  destruct (metadataValidateBucketAndObj E (valParams authInfo request v) w)
    as [[[err|] bucketMD] objectMD]; simpl.
  { by intros [= <- _]. }
  destruct bucketMD as [bucketMD|]; [| done].
  assert (Hrest : ∀ objMD st0,
    match getVersioningInfo E request v bucketMD objMD st0 with
    | (Continue (b, o, d), st1) => deleteOperation E authInfo request b o d st1
    | (Finish e0, st1) => (Some e0, st1)
    | (Crash, st1) => (None, st1)
    end = (Some e, st) → w_bucketMD e = Some bucketMD).
  { intros objMD st0. unfold getVersioningInfo.
    destruct (preprocessingVersioningDelete E (bucketName request) bucketMD
                objMD v) as [[perr|] delOptions].
    { by intros [= <- _]. }
    unfold deleteOperation, removeVersion, putDeleteMarker.
    destruct delOptions as [o|]; [destruct (deleteData o) |].
    - destruct objMD as [md|]; [| done]. simpl.
      destruct (services_deleteObject E (bucketName request) md
                  (objectKey request) o (world st0)) as [[derr dres] w'].
      by intros [= <- _].
    - simpl.
      destruct (createAndStoreObject E (bucketName request) bucketMD
                  (objectKey request) objMD authInfo (getCanonicalID authInfo)
                  VNull request true VNull (world st0)) as [[cerr cres] w'].
      by intros [= <- _].
    - simpl.
      destruct (createAndStoreObject E (bucketName request) bucketMD
                  (objectKey request) objMD authInfo (getCanonicalID authInfo)
                  VNull request true VNull (world st0)) as [[cerr cres] w'].
      by intros [= <- _]. }
  destruct objectMD as [md|].
  - apply Hrest.
  - destruct (getVersioningConfiguration bucketMD).
    + destruct (truthy v); [by intros [= <- _] | apply Hrest].
    + by intros [= <- _].
Qed.

(** ** Marker creation *)

(** C1: a DELETE on a bucket whose versioning configuration exists and
    that carries no explicit version id goes through the object-creation
    path with null content and the marker flag set, whether or not object
    metadata exists; on success the response sets x-amz-delete-marker to
    true and x-amz-version-id to the new marker's encoded version id (the
    literal "null" unencoded), and a putObject metric with both byte
    lengths 0 is pushed.  The two collaborators that decide the path are
    taken by their contracts: preprocessing follows its decision table, and
    a creation that succeeds hands over the new marker's version id. *)
Theorem delete_without_version_id_creates_marker {W} (E : Collaborators W)
    (authInfo : AuthInfo) (request : Request) (w : W) (v : option string)
    (bucketMD : BucketMD) (objectMD : option ObjectMD)
    (err : option Error) (res : option OpResult) (w' : W) :
  isRequesterPublicUser authInfo = false →
  follows_decision_table E →
  decodeVersionId E (query request) = VidValue v →
  truthy v = false →
  metadataValidateBucketAndObj E (valParams authInfo request v) w
  = (None, Some bucketMD, objectMD) →
  getVersioningConfiguration bucketMD ≠ None →
  createAndStoreObject E (bucketName request) bucketMD (objectKey request)
    objectMD authInfo (getCanonicalID authInfo) VNull request true VNull w
  = (err, res, w') →
  keeps_creation_contract err res →
  let r := objectDelete E authInfo request w in
  let cors :=
    collectCorsHeaders E (headers_origin request) (method request)
      (Some bucketMD) in
  let calls :=
    EvValidate (valParams authInfo request v)
    :: (bytes_logged objectMD
        ++ [EvCreateAndStore (bucketName request) bucketMD
              (objectKey request) objectMD authInfo (getCanonicalID authInfo)
              VNull request true VNull])%list in
  world r.2 = w'
  ∧ calls `prefix_of` events r.2
  ∧ (err = None →
     ∃ vid,
       res = Some {| versionId := Some vid |}
       ∧ events r.2
         = (calls ++ [EvPushMetric "putObject"
                        (PutObjectParams authInfo (bucketName request)
                           0 0)])%list
       ∧ r.1 = Called None
                 (Some (<["x-amz-version-id" :=
                           VStr (if String.eqb vid "null" then "null"
                                 else versionIdUtils_encode E vid)]>
                          (<["x-amz-delete-marker" := VBool true]> cors)))).
Proof.
  intros Hpub Htable Hdec Hv Hval Hcfg Hcreate Hcontract. cbn zeta.
  pose proof (Htable (bucketName request) bucketMD objectMD v) as Hrow.
  unfold decision_table in Hrow. rewrite Hv in Hrow.
  destruct (getVersioningConfiguration bucketMD) as [cfg|] eqn:Hc; [| done].
  simpl in Hrow.
  rewrite (run_create E authInfo request w v bucketMD objectMD
             (Some {| deleteData := false; opt_versionId := None |})
             err res w' Hpub Hdec Hval);
    [| by intros _; rewrite Hc | exact Hrow | reflexivity | exact Hcreate].
  unfold finalCallback. simpl.
  destruct err as [err|]; simpl.
  { split; [done |]. split; [done |]. intros [=]. }
  destruct (Hcontract eq_refl) as (vid & -> & Hvid). simpl.
  split; [done |]. split.
  { apply prefix_cons. by apply prefix_app_r. }
  intros _. exists vid. split; [done |]. split; [done |].
  rewrite (markerCreatedHeaders_set E _ {| versionId := Some vid |} vid
             eq_refl Hvid).
  by rewrite header_version_id_spec.
Qed.

(** The in-memory engine is the decision table. *)
Lemma in_memory_follows_decision_table :
  follows_decision_table InMemory.backend.
Proof.
  intros b bucketMD objectMD v. simpl.
  unfold InMemory.preprocessingVersioningDelete.
  by destruct (decision_table _ _ _).
Qed.

(** Deleting a key that was never written, versioning enabled. *)
Lemma delete_without_version_id_creates_marker_witness :
  let request := Scenario.delete_request ∅ in
  let r := objectDelete InMemory.backend Scenario.alice request
             (Scenario.store (Some Enabled) []) in
  r.1 = Called None
          (Some (<["x-amz-version-id" := VStr "id-k"]>
                   (<["x-amz-delete-marker" := VBool true]> Scenario.cors)))
  ∧ events r.2
    = [EvValidate (valParams Scenario.alice request None);
       EvCreateAndStore "versioning-bucket"
         (InMemory.bucketMD_of (Scenario.store (Some Enabled) []))
         "objectKey" None Scenario.alice "alice" VNull request true VNull;
       EvPushMetric "putObject"
         (PutObjectParams Scenario.alice "versioning-bucket" 0 0)].
Proof.
  cbn zeta.
  destruct (delete_without_version_id_creates_marker InMemory.backend
              Scenario.alice (Scenario.delete_request ∅)
              (Scenario.store (Some Enabled) []) None
              (InMemory.bucketMD_of (Scenario.store (Some Enabled) []))
              None None (Some {| versionId := Some "k" |})
              (Scenario.store (Some Enabled)
                 [{| versionKey := "k"; v_isDeleteMarker := true;
                     v_content := None |}])
              ltac:(reflexivity) in_memory_follows_decision_table
              ltac:(reflexivity) ltac:(reflexivity) ltac:(reflexivity)
              ltac:(discriminate) ltac:(reflexivity)
              ltac:(intros _; exists "k"; split; [reflexivity | discriminate]))
    as (_ & _ & Hok).
  destruct (Hok eq_refl) as (vid & Hres & Hev & Hset).
  injection Hres as <-.
  split; [exact Hset | exact Hev].
Defined.

(** ** Physical deletion *)

(** C3: when preprocessing yields options with [deleteData] set, the
    version or marker found by validation is removed through
    [services.deleteObject] with those options; on success, if the removed
    item was a delete marker then x-amz-delete-marker is set to true, if an
    explicit version id was requested then x-amz-version-id echoes its
    encoded token (the literal "null" unencoded), and a deleteObject metric
    carries the removed object's content-length and numberOfObjects 1.
    Preprocessing is taken by its decision table, and the metadata layer by
    the invariant that delete markers are only found in buckets with a
    versioning configuration. *)
Theorem physical_delete_response {W} (E : Collaborators W)
    (authInfo : AuthInfo) (request : Request) (w : W) (v : option string)
    (bucketMD : BucketMD) (objectMD : option ObjectMD) (o : DelOptions) :
  isRequesterPublicUser authInfo = false →
  follows_decision_table E →
  decodeVersionId E (query request) = VidValue v →
  metadataValidateBucketAndObj E (valParams authInfo request v) w
  = (None, Some bucketMD, objectMD) →
  validation_passes bucketMD objectMD v →
  markers_need_versioning bucketMD objectMD →
  preprocessingVersioningDelete E (bucketName request) bucketMD objectMD v
  = (None, Some o) →
  deleteData o = true →
  ∃ md,
    objectMD = Some md
    ∧ ∀ err res w',
        services_deleteObject E (bucketName request) md (objectKey request)
          o w
        = (err, res, w') →
        let r := objectDelete E authInfo request w in
        let cors :=
          collectCorsHeaders E (headers_origin request) (method request)
            (Some bucketMD) in
        let calls :=
          EvValidate (valParams authInfo request v)
          :: (bytes_logged (Some md)
              ++ [EvDeleteObject (bucketName request) md (objectKey request)
                    o])%list in
        let echoed :=
          match v with
          | Some vid =>
              if String.eqb vid "" then cors
              else <["x-amz-version-id" :=
                       VStr (if String.eqb vid "null" then "null"
                             else versionIdUtils_encode E vid)]> cors
          | None => cors
          end in
        world r.2 = w'
        ∧ calls `prefix_of` events r.2
        ∧ (err = None →
           events r.2
           = (calls ++ [EvPushMetric "deleteObject"
                          (DeleteObjectParams authInfo (bucketName request)
                             (content_length md) 1)])%list
           ∧ r.1 = Called None
                     (Some (if isDeleteMarker md
                            then <["x-amz-delete-marker" := VBool true]>
                                   echoed
                            else echoed))).
Proof.
  intros Hpub Htable Hdec Hval Hpass Hinv Hpre Hdel.
  pose proof (Htable (bucketName request) bucketMD objectMD v) as Hrow.
  unfold decision_table in Hrow. rewrite Hpre in Hrow.
  destruct objectMD as [md|].
  2: { destruct (Hpass eq_refl) as [Hcfg Hv]. rewrite Hv in Hrow.
       destruct (getVersioningConfiguration bucketMD); [| done].
       simpl in Hrow. injection Hrow as ->. done. }
  exists md. split; [done |]. intros err res w' Hcall. cbn zeta.
  rewrite (run_delete E authInfo request w v bucketMD md o err res w')
    by done.
  unfold finalCallback. simpl.
  destruct err as [err|]; simpl.
  { split; [done |]. split; [done |]. intros [=]. }
  split; [done |]. split.
  { apply prefix_cons. by apply prefix_app_r. }
  intros _. split; [by rewrite <- app_assoc |].
  do 3 f_equal. unfold versionDeletedHeaders. simpl.
  destruct v as [vid|].
  - rewrite header_version_id_spec.
    destruct (String.eqb vid "") eqn:Hvid; simpl; [| done].
    destruct (isDeleteMarker md) eqn:Hmarker; [| done].
    pose proof (Hinv md eq_refl Hmarker) as Hcfg.
    destruct (getVersioningConfiguration bucketMD); [| done].
    simpl in Hrow. rewrite Hvid in Hrow. simpl in Hrow.
    injection Hrow as ->. done.
  - destruct (isDeleteMarker md) eqn:Hmarker; [| done].
    pose proof (Hinv md eq_refl Hmarker) as Hcfg.
    destruct (getVersioningConfiguration bucketMD); [| done].
    simpl in Hrow. injection Hrow as ->. done.
Qed.

(** Removing a delete marker by its version id. *)
Lemma physical_delete_response_witness :
  let request := Scenario.delete_request (Scenario.with_version "id-k+") in
  let s := Scenario.store (Some Enabled)
             [Scenario.a_marker; Scenario.an_object] in
  let r := objectDelete InMemory.backend Scenario.alice request s in
  r.1 = Called None
          (Some (<["x-amz-delete-marker" := VBool true]>
                   (<["x-amz-version-id" := VStr "id-k+"]> Scenario.cors)))
  ∧ InMemory.chain (world r.2) = [Scenario.an_object].
Proof.
  cbn zeta.
  destruct (physical_delete_response InMemory.backend Scenario.alice
              (Scenario.delete_request (Scenario.with_version "id-k+"))
              (Scenario.store (Some Enabled)
                 [Scenario.a_marker; Scenario.an_object])
              (Some "k+")
              (InMemory.bucketMD_of
                 (Scenario.store (Some Enabled)
                    [Scenario.a_marker; Scenario.an_object]))
              (Some (InMemory.objectMD_of Scenario.a_marker))
              {| deleteData := true; opt_versionId := Some "k+" |}
              ltac:(reflexivity) in_memory_follows_decision_table
              ltac:(reflexivity) ltac:(reflexivity)
              ltac:(intros Hnone; discriminate Hnone)
              ltac:(intros md _ _; discriminate)
              ltac:(reflexivity) ltac:(reflexivity))
    as (md & Hmd & Hrun).
  injection Hmd as <-.
  destruct (Hrun None (Some {| versionId := Some "k+" |})
              {| InMemory.bucket := "versioning-bucket";
                 InMemory.versioning := Some Enabled;
                 InMemory.chain := [Scenario.an_object];
                 InMemory.clock := 2 |}
              ltac:(reflexivity)) as (Hworld & _ & Hok).
  destruct (Hok eq_refl) as [_ Hout].
  split; [exact Hout | by rewrite Hworld].
Defined.

(** ** Conditional version headers *)

(** C9, as amended: in a successful response the version headers are
    conditional.  After creating a delete marker, x-amz-delete-marker and
    x-amz-version-id are set exactly when the creation result contains a
    non-empty [versionId].  After a physical delete, x-amz-version-id (and
    x-amz-delete-marker when a marker was removed) are set exactly when the
    request carried an explicit version id; so a physical delete on a bucket
    with no versioning that is requested without a version id succeeds with
    the CORS headers alone. *)
Theorem version_headers_are_conditional {W} (E : Collaborators W)
    (authInfo : AuthInfo) (request : Request) (w : W) (v : option string)
    (bucketMD : BucketMD) :
  isRequesterPublicUser authInfo = false →
  decodeVersionId E (query request) = VidValue v →
  let r := objectDelete E authInfo request w in
  let cors :=
    collectCorsHeaders E (headers_origin request) (method request)
      (Some bucketMD) in
  let echo (vid : string) (h : JsObj) : JsObj :=
    <["x-amz-version-id" :=
        VStr (if String.eqb vid "null" then "null"
              else versionIdUtils_encode E vid)]> h in
  let mark (h : JsObj) : JsObj := <["x-amz-delete-marker" := VBool true]> h in
  (∀ objectMD delOptions result w',
     metadataValidateBucketAndObj E (valParams authInfo request v) w
     = (None, Some bucketMD, objectMD) →
     validation_passes bucketMD objectMD v →
     preprocessingVersioningDelete E (bucketName request) bucketMD objectMD v
     = (None, delOptions) →
     wants_delete delOptions = false →
     createAndStoreObject E (bucketName request) bucketMD (objectKey request)
       objectMD authInfo (getCanonicalID authInfo) VNull request true VNull w
     = (None, Some result, w') →
     (∀ vid, versionId result = Some vid → vid ≠ "" →
             r.1 = Called None (Some (echo vid (mark cors))))
     ∧ (truthy (versionId result) = false → r.1 = Called None (Some cors)))
  ∧ (∀ md o res w',
       metadataValidateBucketAndObj E (valParams authInfo request v) w
       = (None, Some bucketMD, Some md) →
       preprocessingVersioningDelete E (bucketName request) bucketMD
         (Some md) v
       = (None, Some o) →
       deleteData o = true →
       services_deleteObject E (bucketName request) md (objectKey request) o w
       = (None, res, w') →
       (∀ vid, v = Some vid → vid ≠ "" →
               r.1 = Called None
                       (Some (if isDeleteMarker md then mark (echo vid cors)
                              else echo vid cors)))
       ∧ (truthy v = false → r.1 = Called None (Some cors))
       ∧ (getVersioningConfiguration bucketMD = None → truthy v = false →
          r.1 = Called None (Some cors))).
Proof.
  intros Hpub Hdec. cbn zeta. split.
  - intros objectMD delOptions result w' Hval Hpass Hpre Hwant Hcreate.
    rewrite (run_create E authInfo request w v bucketMD objectMD delOptions
               None (Some result) w') by done.
    unfold finalCallback. simpl. split.
    + intros vid Hres Hvid.
      rewrite (markerCreatedHeaders_set E _ result vid Hres Hvid).
      by rewrite header_version_id_spec.
    + intros Hres. by rewrite markerCreatedHeaders_unset.
  - intros md o res w' Hval Hpre Hdel Hcall.
    rewrite (run_delete E authInfo request w v bucketMD md o None res w')
      by done.
    unfold finalCallback. simpl.
    split; [| split].
    + intros vid -> Hvid. rewrite versionDeletedHeaders_set by done.
      by rewrite header_version_id_spec.
    + intros Hv. by rewrite versionDeletedHeaders_unset.
    + intros _ Hv. by rewrite versionDeletedHeaders_unset.
Qed.

(** Deleting an object of a bucket without versioning, no version id. *)
Lemma version_headers_are_conditional_witness :
  let s := Scenario.store None [Scenario.plain_object] in
  let r := objectDelete InMemory.backend Scenario.alice
             (Scenario.delete_request ∅) s in
  r.1 = Called None (Some Scenario.cors)
  ∧ InMemory.chain (world r.2) = [].
Proof.
  cbn zeta. split; [| reflexivity].
  destruct (version_headers_are_conditional InMemory.backend Scenario.alice
              (Scenario.delete_request ∅)
              (Scenario.store None [Scenario.plain_object]) None
              (InMemory.bucketMD_of
                 (Scenario.store None [Scenario.plain_object]))
              ltac:(reflexivity) ltac:(reflexivity)) as [_ Hdelete].
  destruct (Hdelete (InMemory.objectMD_of Scenario.plain_object)
              {| deleteData := true; opt_versionId := None |}
              (Some {| versionId := None |})
              {| InMemory.bucket := "versioning-bucket";
                 InMemory.versioning := None;
                 InMemory.chain := [];
                 InMemory.clock := 1 |}
              ltac:(reflexivity) ltac:(reflexivity) ltac:(reflexivity)
              ltac:(reflexivity)) as (_ & _ & Hplain).
  exact (Hplain ltac:(reflexivity) ltac:(reflexivity)).
Defined.

(** C9 as stated fails in its last clause: a physical delete on a bucket
    with no versioning whose request names the version id "null" succeeds
    with x-amz-version-id present. *)
Lemma unversioned_delete_echoes_version_id :
  let request := Scenario.delete_request (Scenario.with_version "null") in
  let s := Scenario.store None [Scenario.plain_object] in
  let r := objectDelete InMemory.backend Scenario.alice request s in
  getVersioningConfiguration (InMemory.bucketMD_of s) = None
  ∧ InMemory.chain (world r.2) = []
  ∧ (∃ h, r.1 = Called None (Some h)
          ∧ h !! "x-amz-version-id" = Some (VStr "null")).
Proof.
  cbn zeta. split; [reflexivity |]. split; [reflexivity |].
  exists (<["x-amz-version-id" := VStr "null"]> Scenario.cors).
  split; reflexivity.
Qed.

(** ** CORS headers of every response *)

(** What the waterfall hands to the final callback when no task reported
    an error: the [deleteInfo] of [deleteOperation] and, after a removal,
    the object metadata. *)
Lemma waterfall_success_end {W} (E : Collaborators W) (authInfo : AuthInfo)
    (request : Request) (v : option string) (w : W) (e : WaterfallEnd)
    (st : State W) :
  waterfall E authInfo request v (initial w) = (Some e, st) →
  w_err e = None →
  ∃ deleteInfo,
    w_deleteInfo e = Some deleteInfo
    ∧ (newDeleteMarker deleteInfo = false → ∃ md, w_objectMD e = Some md).
Proof.
  unfold waterfall, validateBucketAndObj. simpl.
  destruct (metadataValidateBucketAndObj E (valParams authInfo request v) w)
    as [[[err|] bucketMD] objectMD]; simpl.
  { by intros [= <- _]. }
  destruct bucketMD as [bucketMD|]; [| done].
  assert (Hrest : ∀ objMD st0,
    match getVersioningInfo E request v bucketMD objMD st0 with
    | (Continue (b, o, d), st1) => deleteOperation E authInfo request b o d st1
    | (Finish e0, st1) => (Some e0, st1)
    | (Crash, st1) => (None, st1)
    end = (Some e, st) →
    w_err e = None →
    ∃ deleteInfo,
      w_deleteInfo e = Some deleteInfo
      ∧ (newDeleteMarker deleteInfo = false → ∃ md, w_objectMD e = Some md)).
  { intros objMD st0. unfold getVersioningInfo.
    destruct (preprocessingVersioningDelete E (bucketName request) bucketMD
                objMD v) as [[perr|] delOptions].
    { by intros [= <- _]. }
    unfold deleteOperation, removeVersion, putDeleteMarker.
    destruct delOptions as [o|]; [destruct (deleteData o) |].
    - destruct objMD as [md|]; [| done]. simpl.
      destruct (services_deleteObject E (bucketName request) md
                  (objectKey request) o (world st0)) as [[derr dres] w'].
      intros [= <- _] _. simpl. eexists. split; [done |]. by eexists.
    - simpl.
      destruct (createAndStoreObject E (bucketName request) bucketMD
                  (objectKey request) objMD authInfo (getCanonicalID authInfo)
                  VNull request true VNull (world st0)) as [[cerr cres] w'].
      intros [= <- _] _. simpl. eexists. split; [done |]. done.
    - simpl.
      destruct (createAndStoreObject E (bucketName request) bucketMD
                  (objectKey request) objMD authInfo (getCanonicalID authInfo)
                  VNull request true VNull (world st0)) as [[cerr cres] w'].
      intros [= <- _] _. simpl. eexists. split; [done |]. done. }
  destruct objectMD as [md|].
  - apply Hrest.
  - destruct (getVersioningConfiguration bucketMD).
    + destruct (truthy v); [by intros [= <- _] | apply Hrest].
    + by intros [= <- _].
Qed.

(** C10: the two early exits (AccessDenied for the public user, a version
    id in the query that fails to decode) call back with the error and no
    response headers.  Every run that reaches the waterfall's final
    callback calls back with the CORS headers computed from the request's
    origin, its method and the bucket metadata validation produced: with
    the error and exactly those headers on an error, with no error and
    exactly those headers on a skip, and on success with those headers into
    which at most the two version headers were written (so the response
    contains every CORS header whenever those use neither version header
    name).  The one run that reaches the final callback and does not call
    back is a marker creation that reported success without a result:
    reading [result.versionId] throws. *)
Theorem responses_carry_cors_headers {W} (E : Collaborators W)
    (authInfo : AuthInfo) (request : Request) (w : W) :
  let r := objectDelete E authInfo request w in
  (isRequesterPublicUser authInfo = true →
   r.1 = Called (Some (ArsenalErr errors.AccessDenied)) None)
  ∧ (∀ e params,
       isRequesterPublicUser authInfo = false →
       query request = QObj params →
       decodeVersionId E (query request) = VidError e →
       r.1 = Called (Some e) None)
  ∧ (∀ v e st,
       isRequesterPublicUser authInfo = false →
       decodeVersionId E (query request) = VidValue v →
       waterfall E authInfo request v (initial w) = (Some e, st) →
       let cors :=
         collectCorsHeaders E (headers_origin request) (method request)
           (w_bucketMD e) in
       w_bucketMD e
       = (metadataValidateBucketAndObj E (valParams authInfo request v)
            w).1.2
       ∧ (∀ err,
            w_err e = Some (Foreign err) →
            r.1 = Called (Some err) (Some cors))
       ∧ (w_err e = Some skipError → r.1 = Called None (Some cors))
       ∧ (w_err e = None →
          (∃ h, r.1 = Called None (Some h)
                ∧ extends_cors cors h
                ∧ ((∀ k, k ∈ version_headers → cors !! k = None) →
                   cors ⊆ h))
          ∨ (r.1 = Threw
             ∧ w_result e = None
             ∧ ∃ deleteInfo,
                 w_deleteInfo e = Some deleteInfo
                 ∧ newDeleteMarker deleteInfo = true))).
Proof.
  cbn zeta. split; [| split].
  - intros Hpub. by rewrite run_public.
  - intros e params Hpub Hquery Hdec.
    by rewrite (run_decode_error E _ _ _ e params).
  - intros v e st Hpub Hdec Hw. rewrite (run_waterfall E _ _ _ v) by done.
    rewrite Hw. split; [by eapply waterfall_bucketMD |].
    unfold finalCallback. split; [| split].
    + intros err ->. done.
    + intros ->. done.
    + intros Herr.
      destruct (waterfall_success_end E authInfo request v w e st Hw Herr)
        as (deleteInfo & Hinfo & Hmd).
      rewrite Herr, Hinfo.
      destruct (newDeleteMarker deleteInfo) eqn:Hnew.
      * destruct (w_result e) as [result|] eqn:Hres.
        -- left. eexists. split; [done |].
           split; [apply markerCreatedHeaders_extends |].
           apply extends_cors_subseteq, markerCreatedHeaders_extends.
        -- right. split; [done |]. split; [done |]. by exists deleteInfo.
      * destruct (Hmd eq_refl) as [md ->].
        left. eexists. split; [done |].
        split; [apply versionDeletedHeaders_extends |].
        apply extends_cors_subseteq, versionDeletedHeaders_extends.
Qed.

(** ** The GET contract *)

Lemma resolve_current_by_key (chain : list Version) (m : Version) :
  resolveVersion chain None = Some m →
  resolveVersion chain (Some (versionKey m)) = Some m.
Proof.
  destruct chain as [|x chain]; simpl; [done |].
  intros [= ->]. by rewrite String.eqb_refl.
Qed.




(** C4: a GET whose resolved version is a delete marker fails according to
    how the marker was reached: naming the marker by an explicit version id
    fails MethodNotAllowed (405); reaching the same marker as the current
    version, with no version id, fails NoSuchKey (404); the two outcomes
    differ. *)
Theorem get_delete_marker_errors (c : Codec) (chain : list Version)
    (m : Version) (t : string) :
  v_isDeleteMarker m = true →
  decodeToken c t = inr (versionKey m) →
  (resolveVersion chain (Some (versionKey m)) = Some m →
   objectGet c chain (Some t) = GetError (ArsenalErr errors.MethodNotAllowed))
  ∧ (resolveVersion chain None = Some m →
     objectGet c chain None = GetError (ArsenalErr errors.NoSuchKey)
     ∧ objectGet c chain (Some t)
       = GetError (ArsenalErr errors.MethodNotAllowed)
     ∧ objectGet c chain (Some t) ≠ objectGet c chain None)
  ∧ errCode errors.MethodNotAllowed = 405%Z
  ∧ errCode errors.NoSuchKey = 404%Z.
Proof.
  intros Hmarker Hdec.
  assert (Hexplicit :
    resolveVersion chain (Some (versionKey m)) = Some m →
    objectGet c chain (Some t)
    = GetError (ArsenalErr errors.MethodNotAllowed)).
  { intros Hres. unfold objectGet. by rewrite Hdec, Hres, Hmarker. }
  split; [exact Hexplicit |]. split; [| done].
  intros Hcur.
  assert (Himplicit :
    objectGet c chain None = GetError (ArsenalErr errors.NoSuchKey)).
  { unfold objectGet. by rewrite Hcur, Hmarker. }
  split; [exact Himplicit |].
  pose proof (Hexplicit (resolve_current_by_key chain m Hcur)) as Hex.
  split; [exact Hex |]. rewrite Hex, Himplicit. discriminate.
Qed.

(** A chain whose current version is a delete marker. *)
Lemma get_delete_marker_errors_witness :
  let chain := [Scenario.a_marker; Scenario.an_object] in
  objectGet InMemory.codec chain (Some "id-k+")
  = GetError (ArsenalErr errors.MethodNotAllowed)
  ∧ objectGet InMemory.codec chain None
    = GetError (ArsenalErr errors.NoSuchKey).
Proof.
  cbn zeta.
  destruct (get_delete_marker_errors InMemory.codec
              [Scenario.a_marker; Scenario.an_object] Scenario.a_marker
              "id-k+" ltac:(reflexivity) ltac:(reflexivity))
    as (_ & Hcur & _).
  destruct (Hcur ltac:(reflexivity)) as (Himplicit & Hexplicit & _).
  split; [exact Hexplicit | exact Himplicit].
Defined.



(** ** The functional test of GET under versioning *)

(** [describe('get a delete marker')]: on a bucket with versioning enabled,
    deleting a key that was never written yields a delete marker; GET with
    the returned version id is refused 405 and GET without one 404. *)
Example test_get_a_delete_marker :
  let r := objectDelete InMemory.backend Scenario.alice
             (Scenario.delete_request ∅) (Scenario.store (Some Enabled) []) in
  let chain := InMemory.chain (world r.2) in
  ∃ h deleteVersionId,
    r.1 = Called None (Some h)
    ∧ h !! "x-amz-delete-marker" = Some (VBool true)
    ∧ h !! "x-amz-version-id" = Some (VStr deleteVersionId)
    ∧ objectGet InMemory.codec chain (Some deleteVersionId)
      = GetError (ArsenalErr errors.MethodNotAllowed)
    ∧ objectGet InMemory.codec chain None
      = GetError (ArsenalErr errors.NoSuchKey).
Proof.
  cbn zeta. eexists _, "id-k". split; [reflexivity |].
  repeat split; reflexivity.
Qed.

(** [describe('getting a object that has been deleted')]: after a PUT and a
    DELETE without version id, GET with the marker's id is refused 405, GET
    with the PUT's version id returns the object and echoes that id, and
    GET without version id is refused 404. *)
Example test_get_a_deleted_object :
  let s0 := Scenario.store (Some Enabled) [] in
  let request := Scenario.delete_request ∅ in
  let put :=
    InMemory.createAndStoreObject "versioning-bucket"
      (InMemory.bucketMD_of s0) "objectKey" None Scenario.alice "alice"
      (VStr "hello") request false VNull s0 in
  let r := objectDelete InMemory.backend Scenario.alice request put.2 in
  let chain := InMemory.chain (world r.2) in
  ∃ putVersionId deleteVersionId h,
    put.1 = (None, Some {| versionId := Some putVersionId |})
    ∧ r.1 = Called None (Some h)
    ∧ h !! "x-amz-version-id"
      = Some (VStr (encodeToken InMemory.codec deleteVersionId))
    ∧ deleteVersionId ≠ putVersionId
    ∧ objectGet InMemory.codec chain
        (Some (encodeToken InMemory.codec deleteVersionId))
      = GetError (ArsenalErr errors.MethodNotAllowed)
    ∧ objectGet InMemory.codec chain
        (Some (encodeToken InMemory.codec putVersionId))
      = GetOk (Some "hello") (encodeToken InMemory.codec putVersionId)
    ∧ objectGet InMemory.codec chain None
      = GetError (ArsenalErr errors.NoSuchKey).
Proof.
  cbn zeta. eexists "k", "k+", _. split; [reflexivity |].
  split; [reflexivity |]. repeat split; try reflexivity. discriminate.
Qed.

(** * Further properties of the DELETE handler *)

(** ** Every call is one of the run cases *)

Lemma validation_passes_found (bucketMD : BucketMD) (md : ObjectMD)
    (v : option string) :
  validation_passes bucketMD (Some md) v.
Proof. intros [=]. Qed.

Lemma objectDelete_run {W} (E : Collaborators W) (authInfo : AuthInfo)
    (request : Request) (w : W) :
  Run E authInfo request w (objectDelete E authInfo request w).1
    (objectDelete E authInfo request w).2.
Proof.
  destruct (isRequesterPublicUser authInfo) eqn:Hpub.
  { rewrite run_public by done. by constructor. }
  destruct (decodeVersionId E (query request)) as [e|v] eqn:Hdec.
  { assert (Hquery : (∃ params, query request = QObj params)
                     ∨ (∀ params, query request ≠ QObj params)).
    { destruct (query request) as [| |params];
        [by right | by right | left; by exists params]. }
    destruct Hquery as [[params Hquery]|Hquery].
    - rewrite (run_decode_error E _ _ _ e params) by done.
      by eapply RunDecodeError.
    - rewrite (run_decode_throws E _ _ _ e) by done.
      by eapply RunDecodeThrows. }
  destruct (metadataValidateBucketAndObj E (valParams authInfo request v) w)
    as [[[err|] bucketMD] objectMD] eqn:Hval.
  { rewrite (run_validation_error E _ _ _ v err bucketMD objectMD) by done.
    by econstructor. }
  destruct bucketMD as [bucketMD|].
  2: { rewrite (run_waterfall E _ _ _ v) by done.
       unfold waterfall, validateBucketAndObj. simpl. rewrite Hval. simpl.
       by eapply RunNoBucketMD. }
  assert (Hcases :
    validation_passes bucketMD objectMD v
    ∨ (objectMD = None ∧ getVersioningConfiguration bucketMD = None)
    ∨ (objectMD = None ∧ getVersioningConfiguration bucketMD ≠ None
       ∧ truthy v = true)).
  { destruct objectMD as [md|]; [left; apply validation_passes_found |].
    destruct (getVersioningConfiguration bucketMD) as [cfg|] eqn:Hcfg;
      [| right; left; done].
    destruct (truthy v) eqn:Hv.
    - right. right. repeat split; done.
    - left. intros _. rewrite Hcfg. done. }
  destruct Hcases as [Hpass|[[-> Hcfg]|(-> & Hcfg & Hv)]].
  2: { rewrite (run_no_such_key E _ _ _ v bucketMD) by done.
       by eapply RunNoSuchKey. }
  2: { rewrite (run_skip E _ _ _ v bucketMD) by done. by eapply RunSkip. }
  destruct (preprocessingVersioningDelete E (bucketName request) bucketMD
              objectMD v) as [[perr|] delOptions] eqn:Hpre.
  { rewrite (run_waterfall E _ _ _ v) by done. unfold waterfall.
    rewrite (validate_passes E _ _ _ v bucketMD objectMD) by done.
    unfold getVersioningInfo. rewrite Hpre. simpl.
    by eapply RunPreprocessError. }
  destruct (wants_delete delOptions) eqn:Hwant.
  - destruct delOptions as [o|]; [| done]. simpl in Hwant.
    destruct objectMD as [md|].
    + destruct (services_deleteObject E (bucketName request) md
                  (objectKey request) o w) as [[derr dres] w'] eqn:Hcall.
      rewrite (run_delete E _ _ _ v bucketMD md o derr dres w') by done.
      destruct derr as [derr|]; cbn -[bytes_logged app].
      * by eapply RunDeleteFailed.
      * unfold emit. cbn -[bytes_logged app].
        rewrite <- app_comm_cons, <- app_assoc. by eapply RunDeleted.
    + rewrite (run_waterfall E _ _ _ v) by done. unfold waterfall.
      rewrite (validate_passes E _ _ _ v bucketMD None) by done.
      unfold getVersioningInfo. rewrite Hpre.
      unfold deleteOperation. rewrite Hwant. simpl.
      by eapply RunDeleteNoObject.
  - destruct (createAndStoreObject E (bucketName request) bucketMD
                (objectKey request) objectMD authInfo
                (getCanonicalID authInfo) VNull request true VNull w)
      as [[cerr cres] w'] eqn:Hcall.
    rewrite (run_create E _ _ _ v bucketMD objectMD delOptions cerr cres w')
      by done.
    destruct cerr as [cerr|]; cbn -[bytes_logged app].
    + by eapply RunCreateFailed.
    + destruct cres as [result|]; cbn -[bytes_logged app].
      * unfold emit. cbn -[bytes_logged app].
        rewrite <- app_comm_cons, <- app_assoc. by eapply RunCreated.
      * by eapply RunCreatedNoResult.
Qed.

(** ** Failures after validation *)

(** X1: when delete preprocessing calls back with an error, the caller gets
    that error with the CORS headers alone; no storage call is made, no
    metric is pushed and the store is unchanged, whatever options came with
    the error. *)
Theorem preprocessing_error_is_reported {W} (E : Collaborators W)
    (authInfo : AuthInfo) (request : Request) (w : W) (v : option string)
    (bucketMD : BucketMD) (objectMD : option ObjectMD) (err : Error)
    (delOptions : option DelOptions) :
  isRequesterPublicUser authInfo = false →
  decodeVersionId E (query request) = VidValue v →
  metadataValidateBucketAndObj E (valParams authInfo request v) w
  = (None, Some bucketMD, objectMD) →
  validation_passes bucketMD objectMD v →
  preprocessingVersioningDelete E (bucketName request) bucketMD objectMD v
  = (Some err, delOptions) →
  objectDelete E authInfo request w
  = (Called (Some err)
       (Some (collectCorsHeaders E (headers_origin request) (method request)
                (Some bucketMD))),
     {| world := w;
        events := EvValidate (valParams authInfo request v)
                  :: bytes_logged objectMD |}).
Proof.
  intros Hpub Hdec Hval Hpass Hpre.
  rewrite (run_waterfall E _ _ _ v) by done. unfold waterfall.
  rewrite (validate_passes E _ _ _ v bucketMD objectMD) by done.
  unfold getVersioningInfo. by rewrite Hpre.
Qed.

(** A failing engine behind an existing object. *)
Lemma preprocessing_error_is_reported_witness :
  objectDelete Faults.engine_fails Scenario.alice
    (Scenario.delete_request ∅)
    (Scenario.store (Some Enabled) [Scenario.an_object])
  = (Called (Some Faults.InternalError) (Some Scenario.cors),
     {| world := Scenario.store (Some Enabled) [Scenario.an_object];
        events :=
          [EvValidate
             (valParams Scenario.alice (Scenario.delete_request ∅) None);
           EvAddDefaultFields 5] |}).
Proof.
  apply (preprocessing_error_is_reported Faults.engine_fails Scenario.alice
           (Scenario.delete_request ∅)
           (Scenario.store (Some Enabled) [Scenario.an_object]) None
           (InMemory.bucketMD_of
              (Scenario.store (Some Enabled) [Scenario.an_object]))
           (Some (InMemory.objectMD_of Scenario.an_object))
           Faults.InternalError None);
    [reflexivity | reflexivity | reflexivity | | reflexivity].
  intros Hnone. discriminate Hnone.
Defined.

(** X2: when [services.deleteObject] calls back with an error, the caller
    gets that error with the CORS headers alone: neither version header is
    set, even for an explicit version id or a removed delete marker, and no
    metric is pushed.  The storage call is the only call after the
    lookup. *)
Theorem failed_removal_is_reported {W} (E : Collaborators W)
    (authInfo : AuthInfo) (request : Request) (w : W) (v : option string)
    (bucketMD : BucketMD) (md : ObjectMD) (o : DelOptions) (err : Error)
    (res : option OpResult) (w' : W) :
  isRequesterPublicUser authInfo = false →
  decodeVersionId E (query request) = VidValue v →
  metadataValidateBucketAndObj E (valParams authInfo request v) w
  = (None, Some bucketMD, Some md) →
  preprocessingVersioningDelete E (bucketName request) bucketMD (Some md) v
  = (None, Some o) →
  deleteData o = true →
  services_deleteObject E (bucketName request) md (objectKey request) o w
  = (Some err, res, w') →
  objectDelete E authInfo request w
  = (Called (Some err)
       (Some (collectCorsHeaders E (headers_origin request) (method request)
                (Some bucketMD))),
     {| world := w';
        events := EvValidate (valParams authInfo request v)
                  :: bytes_logged (Some md)
                  ++ [EvDeleteObject (bucketName request) md
                        (objectKey request) o] |}).
Proof.
  intros Hpub Hdec Hval Hpre Hdel Hcall.
  by rewrite (run_delete E _ _ _ v bucketMD md o (Some err) res w').
Qed.

(** Removing a delete marker by its id when the storage layer fails. *)
Lemma failed_removal_is_reported_witness :
  let request := Scenario.delete_request (Scenario.with_version "id-k+") in
  let s := Scenario.store (Some Enabled)
             [Scenario.a_marker; Scenario.an_object] in
  objectDelete Faults.delete_fails Scenario.alice request s
  = (Called (Some Faults.InternalError) (Some Scenario.cors),
     {| world := s;
        events :=
          [EvValidate (valParams Scenario.alice request (Some "k+"));
           EvDeleteObject "versioning-bucket"
             (InMemory.objectMD_of Scenario.a_marker) "objectKey"
             {| deleteData := true; opt_versionId := Some "k+" |}] |}).
Proof.
  cbn zeta.
  apply (failed_removal_is_reported Faults.delete_fails Scenario.alice
           (Scenario.delete_request (Scenario.with_version "id-k+"))
           (Scenario.store (Some Enabled)
              [Scenario.a_marker; Scenario.an_object])
           (Some "k+")
           (InMemory.bucketMD_of
              (Scenario.store (Some Enabled)
                 [Scenario.a_marker; Scenario.an_object]))
           (InMemory.objectMD_of Scenario.a_marker)
           {| deleteData := true; opt_versionId := Some "k+" |}
           Faults.InternalError None);
    reflexivity.
Defined.

(** X3: when the object-creation path calls back with an error while
    putting a delete marker, the caller gets that error with the CORS
    headers alone, whatever result came with it, and no metric is
    pushed. *)
Theorem failed_creation_is_reported {W} (E : Collaborators W)
    (authInfo : AuthInfo) (request : Request) (w : W) (v : option string)
    (bucketMD : BucketMD) (objectMD : option ObjectMD)
    (delOptions : option DelOptions) (err : Error) (res : option OpResult)
    (w' : W) :
  isRequesterPublicUser authInfo = false →
  decodeVersionId E (query request) = VidValue v →
  metadataValidateBucketAndObj E (valParams authInfo request v) w
  = (None, Some bucketMD, objectMD) →
  validation_passes bucketMD objectMD v →
  preprocessingVersioningDelete E (bucketName request) bucketMD objectMD v
  = (None, delOptions) →
  wants_delete delOptions = false →
  createAndStoreObject E (bucketName request) bucketMD (objectKey request)
    objectMD authInfo (getCanonicalID authInfo) VNull request true VNull w
  = (Some err, res, w') →
  objectDelete E authInfo request w
  = (Called (Some err)
       (Some (collectCorsHeaders E (headers_origin request) (method request)
                (Some bucketMD))),
     {| world := w';
        events := EvValidate (valParams authInfo request v)
                  :: bytes_logged objectMD
                  ++ [EvCreateAndStore (bucketName request) bucketMD
                        (objectKey request) objectMD authInfo
                        (getCanonicalID authInfo) VNull request true
                        VNull] |}).
Proof.
  intros Hpub Hdec Hval Hpass Hpre Hwant Hcall.
  by rewrite (run_create E _ _ _ v bucketMD objectMD delOptions (Some err)
                res w').
Qed.

(** Putting a delete marker when the creation path fails. *)
Lemma failed_creation_is_reported_witness :
  let request := Scenario.delete_request ∅ in
  let s := Scenario.store (Some Enabled) [] in
  (objectDelete Faults.create_fails Scenario.alice request s).1
  = Called (Some Faults.InternalError) (Some Scenario.cors).
Proof.
  cbn zeta.
  rewrite (failed_creation_is_reported Faults.create_fails Scenario.alice
             (Scenario.delete_request ∅) (Scenario.store (Some Enabled) [])
             None
             (InMemory.bucketMD_of (Scenario.store (Some Enabled) []))
             None
             (Some {| deleteData := false; opt_versionId := None |})
             Faults.InternalError None
             (Scenario.store (Some Enabled) []));
    [reflexivity | reflexivity | reflexivity | reflexivity | | reflexivity
    | reflexivity | reflexivity].
  intros _. split; [discriminate | reflexivity].
Defined.

(** ** What a call does to the outside *)

Lemma bytes_logged_no_mutation (objectMD : option ObjectMD) :
  List.filter is_mutation (bytes_logged objectMD) = [].
Proof.
  destruct objectMD as [md|]; simpl; [| done].
  by destruct (content_length md).
Qed.

Lemma bytes_logged_no_metric (objectMD : option ObjectMD) :
  List.filter is_metric (bytes_logged objectMD) = [].
Proof.
  destruct objectMD as [md|]; simpl; [| done].
  by destruct (content_length md).
Qed.

Lemma bytes_logged_elem (objectMD : option ObjectMD) (ev : Event) :
  ev ∈ bytes_logged objectMD → ∃ n, ev = EvAddDefaultFields n.
Proof.
  destruct objectMD as [md|]; simpl; [| by intros ?%elem_of_nil].
  destruct (content_length md) as [n|]; [| by intros ?%elem_of_nil].
  intros ->%list_elem_of_singleton. by exists n.
Qed.

(** X4: a call of [objectDelete] makes at most one storage call (a removal
    or a creation, never both); it pushes a metric only after a storage
    call, and at most one; it pushes none when it reports an error; and
    when it made no storage call the store is as it was. *)
Theorem at_most_one_storage_call {W} (E : Collaborators W)
    (authInfo : AuthInfo) (request : Request) (w : W) :
  let out := (objectDelete E authInfo request w).1 in
  let st := (objectDelete E authInfo request w).2 in
  (length (List.filter is_mutation (events st)) ≤ 1)%nat
  ∧ (length (List.filter is_metric (events st))
     ≤ length (List.filter is_mutation (events st)))%nat
  ∧ (∀ err hdrs,
       out = Called (Some err) hdrs → List.filter is_metric (events st) = [])
  ∧ (List.filter is_mutation (events st) = [] → world st = w).
Proof.
  cbn zeta.
  pose proof (objectDelete_run E authInfo request w) as Hrun.
  destruct (objectDelete E authInfo request w) as [out st]. simpl in *.
  destruct Hrun; cbn -[bytes_logged app];
    rewrite ?List.filter_app, ?bytes_logged_no_mutation,
      ?bytes_logged_no_metric; simpl;
    repeat split; try lia; try done.
Qed.

(** X5: every metric the handler pushes reports the storage call of the
    same request, which succeeded: a putObject metric with both byte
    lengths 0 goes with a marker creation, a deleteObject metric goes with
    a removal and carries the content-length of the very object metadata
    handed to [services.deleteObject], with numberOfObjects 1. *)
Theorem metric_reports_the_storage_call {W} (E : Collaborators W)
    (authInfo : AuthInfo) (request : Request) (w : W) (action : string)
    (obj : MetricObj) :
  let out := (objectDelete E authInfo request w).1 in
  let st := (objectDelete E authInfo request w).2 in
  EvPushMetric action obj ∈ events st →
  (∃ h, out = Called None (Some h))
  ∧ ((action = "putObject"
      ∧ obj = PutObjectParams authInfo (bucketName request) 0 0
      ∧ ∃ bucketMD objectMD,
          EvCreateAndStore (bucketName request) bucketMD (objectKey request)
            objectMD authInfo (getCanonicalID authInfo) VNull request true
            VNull ∈ events st)
     ∨ (action = "deleteObject"
        ∧ ∃ md o,
            obj = DeleteObjectParams authInfo (bucketName request)
                    (content_length md) 1
            ∧ EvDeleteObject (bucketName request) md (objectKey request) o
              ∈ events st)).
Proof.
  cbn zeta.
  pose proof (objectDelete_run E authInfo request w) as Hrun.
  destruct (objectDelete E authInfo request w) as [out st]. simpl in *.
  destruct Hrun; cbn -[bytes_logged app]; intros Hin;
    repeat match goal with
           | H : _ ∈ [] |- _ => by apply elem_of_nil in H
           | H : _ ∈ _ :: _ |- _ => apply elem_of_cons in H as [H|H]
           | H : _ ∈ (_ ++ _)%list |- _ => apply elem_of_app in H as [H|H]
           | H : _ ∈ bytes_logged _ |- _ =>
               apply bytes_logged_elem in H as [? H]
           | H : EvPushMetric _ _ = _ |- _ => by inversion H
           end.
  - injection Hin as -> ->. split; [by eexists |]. right. split; [done |].
    exists md, o. split; [done |].
    apply elem_of_cons. right. apply elem_of_app. right.
    apply elem_of_cons. by left.
  - injection Hin as -> ->. split; [by eexists |]. left.
    split; [done |]. split; [done |]. exists bucketMD, objectMD.
    apply elem_of_cons. right. apply elem_of_app. right.
    apply elem_of_cons. by left.
Qed.

(** The metric of a marker creation on the in-memory backend. *)
Lemma metric_reports_the_storage_call_witness :
  ∃ h, (objectDelete InMemory.backend Scenario.alice
          (Scenario.delete_request ∅) (Scenario.store (Some Enabled) [])).1
       = Called None (Some h).
Proof.
  apply (metric_reports_the_storage_call InMemory.backend Scenario.alice
           (Scenario.delete_request ∅) (Scenario.store (Some Enabled) [])
           "putObject"
           (PutObjectParams Scenario.alice "versioning-bucket" 0 0)).
  apply list_elem_of_In. simpl. right. right. left. reflexivity.
Defined.

(** X6: the handler calls the storage layer only for a requester that is
    not the public user and after validation called back without error,
    and only with what validation found: [services.deleteObject] with the
    object metadata found and options in which preprocessing set
    [deleteData]; the creation path only to put a delete marker (marker
    flag set, null cipher bundle and streaming parameters), when
    preprocessing did not ask for a removal. *)
Theorem storage_calls_are_justified {W} (E : Collaborators W)
    (authInfo : AuthInfo) (request : Request) (w : W) (ev : Event) :
  ev ∈ events (objectDelete E authInfo request w).2 →
  is_mutation ev = true →
  isRequesterPublicUser authInfo = false
  ∧ ∃ v bucketMD objectMD,
      decodeVersionId E (query request) = VidValue v
      ∧ metadataValidateBucketAndObj E (valParams authInfo request v) w
        = (None, Some bucketMD, objectMD)
      ∧ ((∃ md o,
            objectMD = Some md
            ∧ preprocessingVersioningDelete E (bucketName request) bucketMD
                (Some md) v
              = (None, Some o)
            ∧ deleteData o = true
            ∧ ev = EvDeleteObject (bucketName request) md (objectKey request)
                     o)
         ∨ (∃ delOptions,
              preprocessingVersioningDelete E (bucketName request) bucketMD
                objectMD v
              = (None, delOptions)
              ∧ wants_delete delOptions = false
              ∧ ev = EvCreateAndStore (bucketName request) bucketMD
                       (objectKey request) objectMD authInfo
                       (getCanonicalID authInfo) VNull request true VNull)).
Proof.
  pose proof (objectDelete_run E authInfo request w) as Hrun.
  destruct (objectDelete E authInfo request w) as [out st]. simpl in *.
  destruct Hrun; cbn -[bytes_logged app]; intros Hin Hmut;
    repeat match goal with
           | H : _ ∈ [] |- _ => by apply elem_of_nil in H
           | H : _ ∈ _ :: _ |- _ => apply elem_of_cons in H as [H|H]
           | H : _ ∈ (_ ++ _)%list |- _ => apply elem_of_app in H as [H|H]
           | H : _ ∈ bytes_logged _ |- _ =>
               apply bytes_logged_elem in H as [? H]
           end;
    subst ev; try discriminate Hmut;
    (split; [done |]); eexists _, _, _;
    (split; [eassumption |]); (split; [eassumption |]).
  all: first [ left; eexists _, _; repeat split; eauto; fail
             | right; eexists; repeat split; eauto ].
Qed.

(** The storage call of a removal on the in-memory backend. *)
Lemma storage_calls_are_justified_witness :
  isRequesterPublicUser Scenario.alice = false
  ∧ ∃ v,
      decodeVersionId InMemory.backend
        (query (Scenario.delete_request (Scenario.with_version "id-k")))
      = VidValue v.
Proof.
  destruct (storage_calls_are_justified InMemory.backend Scenario.alice
              (Scenario.delete_request (Scenario.with_version "id-k"))
              (Scenario.store (Some Enabled) [Scenario.an_object])
              (EvDeleteObject "versioning-bucket"
                 (InMemory.objectMD_of Scenario.an_object) "objectKey"
                 {| deleteData := true; opt_versionId := Some "k" |}))
    as [Hpub (v & _ & _ & Hdec & _)].
  - apply list_elem_of_In. simpl. right. right. left. reflexivity.
  - reflexivity.
  - split; [exact Hpub | by exists v].
Defined.

(** X7: when the handler calls anything at all, its first call is the
    metadata lookup, made once, for the request's bucket and key, the
    decoded version id and the request type objectDelete. *)
Theorem lookup_comes_first {W} (E : Collaborators W) (authInfo : AuthInfo)
    (request : Request) (w : W) :
  let st := (objectDelete E authInfo request w).2 in
  events st = []
  ∨ ∃ v rest,
      isRequesterPublicUser authInfo = false
      ∧ decodeVersionId E (query request) = VidValue v
      ∧ events st
        = EvValidate {| vp_authInfo := authInfo;
                        vp_bucketName := bucketName request;
                        vp_objectKey := objectKey request;
                        vp_versionId := v;
                        vp_requestType := "objectDelete" |} :: rest
      ∧ ∀ p, EvValidate p ∉ rest.
Proof.
  cbn zeta.
  pose proof (objectDelete_run E authInfo request w) as Hrun.
  destruct (objectDelete E authInfo request w) as [out st]. simpl in *.
  destruct Hrun; cbn -[bytes_logged app]; [by left | by left | by left | ..];
    right; eexists v, _; (split; [done |]); (split; [done |]);
    (split; [reflexivity |]); intros p Hin;
    repeat match goal with
           | H : _ ∈ [] |- _ => by apply elem_of_nil in H
           | H : _ ∈ _ :: _ |- _ => apply elem_of_cons in H as [H|H]
           | H : _ ∈ (_ ++ _)%list |- _ => apply elem_of_app in H as [H|H]
           | H : _ ∈ bytes_logged _ |- _ =>
               apply bytes_logged_elem in H as [? H]
           | H : EvValidate _ = _ |- _ => discriminate H
           end.
Qed.

(** ** Shape of the response *)

(** X8: the response headers are the CORS headers of the bucket metadata
    the final callback received, with nothing written, or x-amz-version-id
    written, or both x-amz-version-id and x-amz-delete-marker written: the
    marker header is never written without the version id, and its value is
    always the boolean true.  The version id written is the literal "null"
    or the encoding of a non-empty id other than "null". *)
Theorem response_header_shapes {W} (E : Collaborators W)
    (authInfo : AuthInfo) (request : Request) (w : W) (err : option Error)
    (h : JsObj) :
  (objectDelete E authInfo request w).1 = Called err (Some h) →
  ∃ bucketMD,
    let cors :=
      collectCorsHeaders E (headers_origin request) (method request)
        bucketMD in
    let echo (vid : string) : JsVal :=
      VStr (if String.eqb vid "null" then "null"
            else versionIdUtils_encode E vid) in
    h = cors
    ∨ (∃ vid, vid ≠ "" ∧ h = <["x-amz-version-id" := echo vid]> cors)
    ∨ (∃ vid, vid ≠ ""
              ∧ h = <["x-amz-delete-marker" := VBool true]>
                      (<["x-amz-version-id" := echo vid]> cors)).
Proof.
  pose proof (objectDelete_run E authInfo request w) as Hrun.
  destruct (objectDelete E authInfo request w) as [out st]. simpl in *.
  intros ->. inversion Hrun; subst; try (by eexists; left).
  - eexists. cbn zeta. unfold versionDeletedHeaders.
    destruct v as [vid|]; [| by left].
    destruct (truthy (Some vid)) eqn:Hvid; [| by left].
    apply truthy_Some in Hvid.
    rewrite header_version_id_spec. simpl.
    destruct (isDeleteMarker md); right; [right | left]; by exists vid.
  - eexists. cbn zeta. unfold markerCreatedHeaders.
    destruct (versionId result) as [vid|]; [| by left].
    destruct (truthy (Some vid)) eqn:Hvid; [| by left].
    apply truthy_Some in Hvid.
    rewrite header_version_id_spec. right. right. exists vid.
    split; [done |]. by apply insert_insert_ne.
Qed.

(** The headers after removing a delete marker by its id. *)
Lemma response_header_shapes_witness :
  ∃ bucketMD,
    let cors :=
      collectCorsHeaders InMemory.backend (VStr "http://example.org")
        "DELETE" bucketMD in
    let echo (vid : string) : JsVal :=
      VStr (if String.eqb vid "null" then "null"
            else versionIdUtils_encode InMemory.backend vid) in
    let h := <["x-amz-delete-marker" := VBool true]>
               (<["x-amz-version-id" := VStr "id-k+"]> Scenario.cors) in
    h = cors
    ∨ (∃ vid, vid ≠ "" ∧ h = <["x-amz-version-id" := echo vid]> cors)
    ∨ (∃ vid, vid ≠ ""
              ∧ h = <["x-amz-delete-marker" := VBool true]>
                      (<["x-amz-version-id" := echo vid]> cors)).
Proof.
  apply (response_header_shapes InMemory.backend Scenario.alice
           (Scenario.delete_request (Scenario.with_version "id-k+"))
           (Scenario.store (Some Enabled)
              [Scenario.a_marker; Scenario.an_object]) None).
  reflexivity.
Defined.

(** X9: [objectDelete] always calls back, and never throws, when its
    collaborators keep four promises, one for each property read on a
    value that may be [undefined]: the decoder reports an error only for a
    query object, validation that reports no error hands over bucket
    metadata, preprocessing never asks to remove an object validation did
    not find, and a creation that reports no error hands over a result. *)
Theorem objectDelete_calls_back {W} (E : Collaborators W)
    (authInfo : AuthInfo) (request : Request) (w : W) :
  (∀ q e, decodeVersionId E q = VidError e → ∃ params, q = QObj params) →
  (∀ p w0 objectMD,
     metadataValidateBucketAndObj E p w0 ≠ (None, None, objectMD)) →
  (∀ b bucketMD v o,
     preprocessingVersioningDelete E b bucketMD None v = (None, Some o) →
     deleteData o = false) →
  (∀ b bucketMD k objectMD a cid cb r m sp w0 w1,
     createAndStoreObject E b bucketMD k objectMD a cid cb r m sp w0
     ≠ (None, None, w1)) →
  ∃ err hdrs, (objectDelete E authInfo request w).1 = Called err hdrs.
Proof.
  intros Hdecode Hval Hpre Hcreate.
  pose proof (objectDelete_run E authInfo request w) as Hrun.
  destruct (objectDelete E authInfo request w) as [out st]. simpl in *.
  inversion Hrun; subst; try (by eexists _, _).
  - match goal with
    | H : decodeVersionId _ _ = VidError _ |- _ =>
        apply Hdecode in H as [params Hq]
    end.
    match goal with H : ∀ params, _ ≠ _ |- _ => by destruct (H params) end.
  - by edestruct Hval.
  - match goal with
    | H : preprocessingVersioningDelete _ _ _ None _ = _ |- _ =>
        apply Hpre in H
    end. congruence.
  - by edestruct Hcreate.
Qed.

(** The in-memory backend keeps the four promises. *)
Lemma objectDelete_calls_back_witness :
  ∃ err hdrs,
    (objectDelete InMemory.backend Scenario.alice
       (Scenario.delete_request ∅)
       (Scenario.store (Some Enabled) [Scenario.an_object])).1
    = Called err hdrs.
Proof.
  apply (objectDelete_calls_back InMemory.backend).
  - intros q e. simpl. unfold InMemory.decodeVersionId.
    destruct q as [| |params]; [discriminate | discriminate |].
    intros _. by exists params.
  - intros p w0 objectMD. simpl.
    unfold InMemory.metadataValidateBucketAndObj.
    destruct (String.eqb (vp_bucketName p) (InMemory.bucket w0));
      discriminate.
  - intros b bucketMD v o. simpl.
    unfold InMemory.preprocessingVersioningDelete, decision_table.
    destruct (getVersioningConfiguration bucketMD); [| discriminate].
    destruct (truthy v); [discriminate |]. intros Heq.
    injection Heq as <-. reflexivity.
  - intros b bucketMD k objectMD a cid cb r m sp w0 w1. simpl.
    unfold InMemory.createAndStoreObject. discriminate.
Defined.

(** X10: a success always comes with response headers, and it means one of
    two things: the skip case (an explicit version id, a bucket with a
    versioning configuration, no object found: no storage call, no metric,
    store unchanged, CORS headers alone), or exactly one storage call
    followed by exactly one metric. *)
Theorem success_means_skip_or_one_storage_call {W} (E : Collaborators W)
    (authInfo : AuthInfo) (request : Request) (w : W)
    (hdrs : option JsObj) :
  (objectDelete E authInfo request w).1 = Called None hdrs →
  let st := (objectDelete E authInfo request w).2 in
  ∃ h,
    hdrs = Some h
    ∧ ((∃ v bucketMD,
          decodeVersionId E (query request) = VidValue v
          ∧ truthy v = true
          ∧ metadataValidateBucketAndObj E (valParams authInfo request v) w
            = (None, Some bucketMD, None)
          ∧ getVersioningConfiguration bucketMD ≠ None
          ∧ events st = [EvValidate (valParams authInfo request v)]
          ∧ world st = w
          ∧ h = collectCorsHeaders E (headers_origin request)
                  (method request) (Some bucketMD))
       ∨ (length (List.filter is_mutation (events st)) = 1%nat
          ∧ length (List.filter is_metric (events st)) = 1%nat
          ∧ ∃ calls action obj,
              events st = (calls ++ [EvPushMetric action obj])%list)).
Proof.
  pose proof (objectDelete_run E authInfo request w) as Hrun.
  destruct (objectDelete E authInfo request w) as [out st]. simpl in *.
  intros ->. inversion Hrun; subst; cbn -[bytes_logged app].
  - eexists. split; [done |]. left. by eexists _, _.
  - eexists. split; [done |]. right.
    rewrite !List.filter_app, bytes_logged_no_mutation,
      bytes_logged_no_metric. simpl. split; [done |]. split; [done |].
    eexists (_ :: bytes_logged (Some md) ++ [_])%list, _, _.
    by rewrite <- app_comm_cons, <- app_assoc.
  - eexists. split; [done |]. right.
    rewrite !List.filter_app, bytes_logged_no_mutation,
      bytes_logged_no_metric. simpl. split; [done |]. split; [done |].
    eexists (_ :: bytes_logged objectMD ++ [_])%list, _, _.
    by rewrite <- app_comm_cons, <- app_assoc.
Qed.

(** The skip case on the in-memory backend. *)
Lemma success_means_skip_or_one_storage_call_witness :
  let request := Scenario.delete_request (Scenario.with_version "id-k+++") in
  let s := Scenario.store (Some Enabled) [Scenario.an_object] in
  let st := (objectDelete InMemory.backend Scenario.alice request s).2 in
  ∃ h,
    Some Scenario.cors = Some h
    ∧ ((∃ v bucketMD,
          decodeVersionId InMemory.backend (query request) = VidValue v
          ∧ truthy v = true
          ∧ metadataValidateBucketAndObj InMemory.backend
              (valParams Scenario.alice request v) s
            = (None, Some bucketMD, None)
          ∧ getVersioningConfiguration bucketMD ≠ None
          ∧ events st = [EvValidate (valParams Scenario.alice request v)]
          ∧ world st = s
          ∧ h = collectCorsHeaders InMemory.backend (headers_origin request)
                  (method request) (Some bucketMD))
       ∨ (length (List.filter is_mutation (events st)) = 1%nat
          ∧ length (List.filter is_metric (events st)) = 1%nat
          ∧ ∃ calls action obj,
              events st = (calls ++ [EvPushMetric action obj])%list)).
Proof.
  exact (success_means_skip_or_one_storage_call InMemory.backend
           Scenario.alice
           (Scenario.delete_request (Scenario.with_version "id-k+++"))
           (Scenario.store (Some Enabled) [Scenario.an_object])
           (Some Scenario.cors) ltac:(reflexivity)).
Defined.

(** X11: every error [objectDelete] reports has a definite origin:
    AccessDenied for the public user, the error [decodeVersionId] returned,
    NoSuchKey for an absent object on a bucket with no versioning
    configuration, or the very error a collaborator (validation,
    preprocessing, removal, creation) called back with.  The handler makes
    up no other error. *)
Theorem reported_errors_have_an_origin {W} (E : Collaborators W)
    (authInfo : AuthInfo) (request : Request) (w : W) (err : Error)
    (hdrs : option JsObj) :
  (objectDelete E authInfo request w).1 = Called (Some err) hdrs →
  (isRequesterPublicUser authInfo = true
   ∧ err = ArsenalErr errors.AccessDenied)
  ∨ (isRequesterPublicUser authInfo = false
     ∧ (decodeVersionId E (query request) = VidError err
        ∨ ∃ v,
            decodeVersionId E (query request) = VidValue v
            ∧ ((∃ bucketMD objectMD,
                  metadataValidateBucketAndObj E
                    (valParams authInfo request v) w
                  = (Some err, bucketMD, objectMD))
               ∨ (∃ bucketMD,
                    metadataValidateBucketAndObj E
                      (valParams authInfo request v) w
                    = (None, Some bucketMD, None)
                    ∧ getVersioningConfiguration bucketMD = None
                    ∧ err = ArsenalErr errors.NoSuchKey)
               ∨ (∃ bucketMD objectMD delOptions,
                    preprocessingVersioningDelete E (bucketName request)
                      bucketMD objectMD v
                    = (Some err, delOptions))
               ∨ (∃ md o res w',
                    services_deleteObject E (bucketName request) md
                      (objectKey request) o w
                    = (Some err, res, w'))
               ∨ (∃ bucketMD objectMD res w',
                    createAndStoreObject E (bucketName request) bucketMD
                      (objectKey request) objectMD authInfo
                      (getCanonicalID authInfo) VNull request true VNull w
                    = (Some err, res, w'))))).
Proof.
  pose proof (objectDelete_run E authInfo request w) as Hrun.
  destruct (objectDelete E authInfo request w) as [out st]. simpl in *.
  intros ->. inversion Hrun; subst.
  - by left.
  - right. split; [done |]. by left.
  - right. split; [done |]. right. exists v. split; [done |].
    left. by eexists _, _.
  - right. split; [done |]. right. exists v. split; [done |].
    right. left. by eexists.
  - right. split; [done |]. right. exists v. split; [done |].
    right. right. left. by eexists _, _, _.
  - right. split; [done |]. right. exists v. split; [done |].
    right. right. right. left. by eexists _, _, _, _.
  - right. split; [done |]. right. exists v. split; [done |].
    right. right. right. right. by eexists _, _, _, _.
Qed.

(** The AccessDenied of an anonymous requester. *)
Lemma reported_errors_have_an_origin_witness :
  isRequesterPublicUser Scenario.anonymous = true
  ∨ isRequesterPublicUser Scenario.anonymous = false.
Proof.
  destruct (reported_errors_have_an_origin InMemory.backend
              Scenario.anonymous (Scenario.delete_request ∅)
              (Scenario.store (Some Enabled) [])
              (ArsenalErr errors.AccessDenied) None ltac:(reflexivity))
    as [[Hpub _]|[Hpub _]].
  - by left.
  - by right.
Defined.

(** * Further properties of the query guard *)

(** X12: parameters other than [versionId] never change the verdict of
    [checkQueryVersionId]: adding, overwriting or removing one leaves it as
    it was. *)
Theorem checkQueryVersionId_ignores_other_parameters (params : JsObj)
    (k : string) (x : JsVal) :
  k ≠ "versionId" →
  checkQueryVersionId (QObj (<[k := x]> params))
  = checkQueryVersionId (QObj params)
  ∧ checkQueryVersionId (QObj (delete k params))
    = checkQueryVersionId (QObj params).
Proof.
  intros Hk. unfold checkQueryVersionId, get_prop.
  by rewrite lookup_insert_ne, lookup_delete_ne.
Qed.

(** A list request that also names a version id. *)
Lemma checkQueryVersionId_ignores_other_parameters_witness :
  checkQueryVersionId
    (QObj (<["uploadId" := VStr "42"]> (Scenario.with_version "id-k")))
  = checkQueryVersionId (QObj (Scenario.with_version "id-k"))
  ∧ checkQueryVersionId
      (QObj (delete "uploadId" (Scenario.with_version "id-k")))
    = checkQueryVersionId (QObj (Scenario.with_version "id-k")).
Proof.
  apply (checkQueryVersionId_ignores_other_parameters
           (Scenario.with_version "id-k") "uploadId" (VStr "42")).
  discriminate.
Defined.

(** X13: what the query held before does not matter once [versionId] is
    set: set to [undefined] it is accepted like an absent key; set to
    anything else ([null], [false], [0], the empty string included) it is
    rejected with the customized InvalidArgument error. *)
Theorem checkQueryVersionId_after_setting_versionId (params : JsObj)
    (v : JsVal) :
  checkQueryVersionId (QObj (<["versionId" := v]> params))
  = match v with
    | VUndefined => None
    | _ =>
        Some {| errType := "InvalidArgument"; errCode := 400;
                description :=
                  Some "This operation does not accept a version-id." |}
    end.
Proof.
  unfold checkQueryVersionId, get_prop. rewrite lookup_insert_eq. simpl.
  destruct v; by case_decide.
Qed.

(** * The helpers of the functional test *)

(** X14: no callback error satisfies both helpers, and an error satisfies
    [_assertError] for at most one pair of status and code: a response
    cannot pass both the 405 MethodNotAllowed and the 404 NoSuchKey
    expectation of the test. *)
Theorem assert_helpers_are_exclusive (err : option ClientError)
    (desc : string) (status status' expected expected' : JsVal) :
  (_assertNoError err desc = true → _assertError err status expected = false)
  ∧ (_assertError err status expected = true →
     _assertError err status' expected' = true →
     status = status' ∧ expected = expected').
Proof.
  destruct err as [e|]; simpl; split; try done.
  intros [H1 H2]%andb_true_iff [H3 H4]%andb_true_iff.
  apply bool_decide_eq_true in H1, H2, H3, H4. split; congruence.
Qed.
